(** * CritView: unit registry, data loading, parametric fit and resampling

    A shallow embedding of [critview_app.py].

    Conventions of the embedding.
    - Python [float]s and numpy [float64]s are idealised as exact rationals
      ([Q], compared with [==]); a NaN cell is [None].  IEEE rounding and
      the infinities (which [pd.to_numeric] reads and [dropna] keeps) are
      outside the model: it speaks of files with finite numbers.
    - Python [int]s are [Z].
    - A Python [dict] is an association list in insertion order (the order
      of [.keys()] matters to the program).
    - A pandas [DataFrame] is the list of its rows, in index order, over the
      thirteen columns the script names.  The model speaks of files that
      have all of them, with strings or missing values in the title, the
      attribute and the variable-name columns; a file without one of the
      columns, or with numbers in these columns, is outside it.
    - Code that can raise returns a [result]; the messages the program sends
      to the page ([st.warning], [st.error]) are collected in a list.
    - Library calls (numpy, pandas, scipy, streamlit) are modelled by their
      documented behaviour, each under the module of its library.  Two
      library functions stay parameters: the reading of a string as a
      number by [pd.to_numeric], and the evaluation of a spline object.
      Nothing is proved of scipy's evaluation; where a result needs the
      spline to pass through its data, that is a stated condition.
    - [st.cache_data] memoises pure functions and is transparent here.  The
      page is followed up to the data handed to the chart; drawing and the
      metadata table are left out. *)

From Stdlib Require Import String List ZArith QArith Lia Bool Arith.
Import ListNotations.

Local Open Scope string_scope.
Local Open Scope list_scope.

(** ** Python exceptions and the error monad *)

Inductive exn : Type :=
| KeyError
| ValueError
| IndexError
| AttributeError
| ZeroDivisionError
| StreamlitAPIException.

Inductive result (A : Type) : Type :=
| Ok (a : A)
| Raise (e : exn).

Arguments Ok {A} a.
Arguments Raise {A} e.

Definition bind {A B : Type} (m : result A) (k : A -> result B) : result B :=
  match m with
  | Ok a => k a
  | Raise e => Raise e
  end.

Notation "x <- m ;; k" := (bind m (fun x => k))
  (at level 61, m at next level, right associativity).
Notation "' p <- m ;; k" := (bind m (fun x => match x with p => k end))
  (at level 61, p pattern, m at next level, right associativity).

(** ** Python dictionaries with string keys *)

Definition dict (V : Type) : Type := list (string * V).

Fixpoint dict_get {V : Type} (d : dict V) (k : string) : option V :=
  match d with
  | [] => None
  | (k', v) :: d' => if String.eqb k' k then Some v else dict_get d' k
  end.

(** [k in d] *)
Definition dict_mem {V : Type} (d : dict V) (k : string) : bool :=
  match dict_get d k with
  | Some _ => true
  | None => false
  end.

(** [d[k]] *)
Definition dict_item {V : Type} (d : dict V) (k : string) : result V :=
  match dict_get d k with
  | Some v => Ok v
  | None => Raise KeyError
  end.

(** [list(d.keys())] *)
Definition dict_keys {V : Type} (d : dict V) : list string := map fst d.

(** [a / b] on Python floats *)
Definition py_div (a b : Q) : result Q :=
  if Qeq_bool b 0 then Raise ZeroDivisionError else Ok (a / b)%Q.

(** [l.index(x)] *)
Fixpoint list_index (l : list string) (x : string) : result nat :=
  match l with
  | [] => Raise ValueError
  | y :: l' => if String.eqb y x then Ok O else i <- list_index l' x ;; Ok (S i)
  end.

(** ** 1. The unit conversion tables *)

Definition CONVERSION_FACTORS : dict (dict Q) :=
  [ ("length",
      [ ("centimeters (cm)", 1.0%Q);
        ("meters (m)", 100.0%Q);
        ("inches (in)", 2.54%Q);
        ("feet (ft)", 30.48%Q) ]);
    ("concentration_vol",
      [ ("g/cc", 1.0%Q);
        ("g/L", 1000.0%Q);
        ("kg/m^3", 1000.0%Q);
        ("g/ft^3", 28316.8466%Q) ]);
    ("mass",
      [ ("grams (g)", 1.0%Q);
        ("kilograms (kg)", 1000.0%Q);
        ("ounces (oz)", 28.3495%Q);
        ("pounds (lb)", 453.592%Q) ]);
    ("volume",
      [ ("cm^3 (cc)", 1.0%Q);
        ("liters (L)", 1000.0%Q);
        ("in^3", 16.3871%Q);
        ("ft^3", 28316.8466%Q);
        ("gallons (US)", 3785.41%Q) ]);
    ("concentration_linear",
      [ ("g/ft", 1.0%Q);
        ("g/cm", 30.48%Q);
        ("kg/m", 32.8084%Q) ]);
    ("concentration_areal",
      [ ("kg/ft^2", 1.0%Q);
        ("g/cm^2", 10.7639%Q) ]) ].

Definition VARIABLE_TO_CATEGORY : dict (string * string) :=
  [ ("Diameter in", ("length", "inches (in)"));
    ("Height in", ("length", "inches (in)"));
    ("Radius in", ("length", "inches (in)"));
    ("Thickness in", ("length", "inches (in)"));
    ("critconc g/cc", ("concentration_vol", "g/cc"));
    ("critconc g/L", ("concentration_vol", "g/L"));
    ("critconc_linear g/ft", ("concentration_linear", "g/ft"));
    ("critconc_areal kg/ft2", ("concentration_areal", "kg/ft^2"));
    ("critmass kg", ("mass", "kilograms (kg)"));
    ("volume L", ("volume", "liters (L)"));
    ("volume gal", ("volume", "gallons (US)")) ].

(** [get_unit_info(var_name)]: category, "base" unit and selectable units. *)
Definition get_unit_info (var_name : string)
  : result (string * string * list string) :=
  if dict_mem VARIABLE_TO_CATEGORY var_name then
    '(category, base_unit) <- dict_item VARIABLE_TO_CATEGORY var_name ;;
    units <- dict_item CONVERSION_FACTORS category ;;
    Ok (category, base_unit, dict_keys units)
  else
    Ok ("unknown", var_name, [var_name]).

(** The conversion factor of one axis (the [x_conv_factor] and
    [y_conv_factor] assignments of the script), over an arbitrary table so
    that the dependence on the table is visible. *)
Definition conv_factor_in (table : dict (dict Q))
    (category base_unit unit_selected : string) : result Q :=
  if negb (String.eqb category "unknown") then
    units <- dict_item table category ;;
    from <- dict_item units base_unit ;;
    units' <- dict_item table category ;;
    to <- dict_item units' unit_selected ;;
    py_div from to
  else
    Ok 1.0%Q.

Definition conv_factor : string -> string -> string -> result Q :=
  conv_factor_in CONVERSION_FACTORS.

(** [values * factor] on a numpy array: a new array, element by element. *)
Definition scale (values : list Q) (factor : Q) : list Q :=
  map (fun v => (v * factor)%Q) values.

(** ** Library behaviour the script relies on *)

(** *** numpy *)
Module np.

(** [np.arange(n)]: the integers [0, 1, ..., n-1]. *)
Definition arange (n : Z) : list Z :=
  map Z.of_nat (seq 0 (Z.to_nat n)).

(** [y[-1] = v] on a non-empty array. *)
Definition set_last (y : list Q) (v : Q) : list Q :=
  match y with
  | [] => []
  | _ :: _ => removelast y ++ [v]
  end.

(** [np.linspace(start, stop, num)] with the default [endpoint=True]:
    [arange(0, num) * step + start] with [step = (stop - start) / (num - 1)],
    the last entry then overwritten with [stop]. *)
Definition linspace (start stop : Q) (num : nat) : list Q :=
  let y := map (fun i => inject_Z (Z.of_nat i)) (seq 0 num) in
  let delta := (stop - start)%Q in
  let div := (Z.of_nat num - 1)%Z in
  let y :=
    if (0 <? div)%Z then
      let step := (delta / inject_Z div)%Q in
      if Qeq_bool step 0 then
        map (fun v => (v / inject_Z div * delta)%Q) y
      else
        map (fun v => (v * step)%Q) y
    else
      map (fun v => (v * delta)%Q) y in
  let y := map (fun v => (v + start)%Q) y in
  if (1 <? num)%nat then set_last y stop else y.

(** [np.insert(arr, 0, v)] on a one-dimensional array: [v] in front.
    numpy casts [v] to the fixed string width of [arr], so the script's
    label "All" is cut short when every entry of [arr] has fewer than
    three characters; the cut is not modelled, the label is taken to fit.
    The entries of [arr] themselves are never changed. *)
Definition insert0 {A : Type} (arr : list A) (v : A) : list A := v :: arr.

End np.

(** *** scipy.interpolate *)
Module scipy.

(** A [UnivariateSpline] object, represented by the arguments it was
    built from: abscissae, ordinates, smoothing factor [s], degree [k].
    The numerical fit (FITPACK) is not modelled; evaluation is a
    parameter of the development below. *)
Record spline : Type := mkSpline {
  sp_x : list Q;
  sp_y : list Q;
  sp_s : Q;
  sp_k : Z
}.

Definition Qlt_bool (a b : Q) : bool := negb (Qle_bool b a).

(** [np.all(np.diff(x) > 0)] and [np.all(np.diff(x) >= 0)] *)
Fixpoint all_diff (cmp : Q -> Q -> bool) (x : list Q) : bool :=
  match x with
  | [] => true
  | a :: x' =>
      match x' with
      | [] => true
      | b :: _ => cmp a b && all_diff cmp x'
      end
  end.

(** The constructor's input validation ([s] given): the abscissae are
    strictly increasing when [s = 0] and increasing otherwise, both
    arrays have one length, [1 <= k <= 5], [s >= 0], and there are more
    than [k] points.  A violation raises. *)
Definition UnivariateSpline (x y : list Q) (s : Q) (k : Z) : result spline :=
  if negb (all_diff (if Qlt_bool 0 s then Qle_bool else Qlt_bool) x) then
    Raise ValueError
  else if negb (length x =? length y)%nat then Raise ValueError
  else if negb ((1 <=? k)%Z && (k <=? 5)%Z) then Raise ValueError
  else if negb (Qle_bool 0 s) then Raise ValueError
  else if negb (k <? Z.of_nat (length x))%Z then Raise ValueError
  else Ok (mkSpline x y s k).

End scipy.

(** *** pandas *)
Module pd.

Section Unique.
Context {A : Type} (eqb : A -> A -> bool).

Fixpoint unique_from (seen : list A) (l : list A) : list A :=
  match l with
  | [] => []
  | a :: l' =>
      if existsb (eqb a) seen then unique_from seen l'
      else a :: unique_from (a :: seen) l'
  end.

(** [Series.unique()]: the distinct values in order of first
    appearance (all NaN count as one value). *)
Definition unique (l : list A) : list A := unique_from [] l.
End Unique.

(** [Series.dropna()] on a column of optional values. *)
Fixpoint dropna {A : Type} (l : list (option A)) : list A :=
  match l with
  | [] => []
  | Some a :: l' => a :: dropna l'
  | None :: l' => dropna l'
  end.

End pd.

(** *** streamlit *)
Module st.

(** [st.selectbox(label, options, index=default)]: the option the user
    picked ([choice], an index into [options]; [None] while the widget is
    untouched).  No options give [None]; an index outside the options
    raises. *)
Definition selectbox {A : Type} (options : list A) (default : nat)
    (choice : option nat) : result (option A) :=
  match options with
  | [] => Ok None
  | _ :: _ =>
      let i := match choice with Some i => i | None => default end in
      match nth_error options i with
      | Some a => Ok (Some a)
      | None => Raise StreamlitAPIException
      end
  end.

End st.

(** ** 2. The dataset *)

(** A text cell of the CSV file: [None] is a missing value (NaN). *)
Definition text : Type := option string.

(** [a == b] between a text cell and a string: NaN equals nothing. *)
Definition text_eq (a : text) (b : string) : bool :=
  match a with
  | Some s => String.eqb s b
  | None => false
  end.

(** [a == b] between two text cells. *)
Definition text_eqb (a b : text) : bool :=
  match b with
  | Some s => text_eq a s
  | None => false
  end.

(** Equality as [unique()] sees it: all NaN are one value. *)
Definition text_same (a b : text) : bool :=
  match a, b with
  | Some s, Some s' => String.eqb s s'
  | None, None => true
  | _, _ => false
  end.

(** A value cell as [read_csv] delivers it: a (finite) number, a string
    (in a column that did not parse as numbers), or a missing value. *)
Inductive cell : Type :=
| CNum (q : Q)
| CStr (s : string)
| CNaN.

(** One row of a table that has the thirteen columns of the script, with
    text in all but the two value columns; [V] is the type of the two value
    columns. *)
Record Row (V : Type) : Type := mkRow {
  title : text;
  X_Value : V;
  Y_Value : V;
  X_Variable : text;
  Y_Variable : text;
  geometry : text;
  fiss_element : text;
  critmat : text;
  fiss_form : text;
  isomat : text;
  modmat : text;
  reflmat : text;
  reflthick : text
}.

Arguments mkRow {V}.
Arguments title {V}.
Arguments X_Value {V}.
Arguments Y_Value {V}.
Arguments X_Variable {V}.
Arguments Y_Variable {V}.
Arguments geometry {V}.
Arguments fiss_element {V}.
Arguments critmat {V}.
Arguments fiss_form {V}.
Arguments isomat {V}.
Arguments modmat {V}.
Arguments reflmat {V}.
Arguments reflthick {V}.

Definition DataFrame (V : Type) : Type := list (Row V).

(** The row with its two value cells replaced. *)
Definition with_values {V W : Type} (r : Row V) (x y : W) : Row W :=
  mkRow (title r) x y (X_Variable r) (Y_Variable r) (geometry r)
        (fiss_element r) (critmat r) (fiss_form r) (isomat r) (modmat r)
        (reflmat r) (reflthick r).

(** [df.replace('nan', np.nan)], cell by cell, in every column. *)
Definition replace_nan_text (a : text) : text :=
  match a with
  | Some s => if String.eqb s "nan" then None else Some s
  | None => None
  end.

Definition replace_nan_cell (c : cell) : cell :=
  match c with
  | CStr s => if String.eqb s "nan" then CNaN else CStr s
  | _ => c
  end.

Definition replace_nan (r : Row cell) : Row cell :=
  mkRow (replace_nan_text (title r))
        (replace_nan_cell (X_Value r)) (replace_nan_cell (Y_Value r))
        (replace_nan_text (X_Variable r)) (replace_nan_text (Y_Variable r))
        (replace_nan_text (geometry r)) (replace_nan_text (fiss_element r))
        (replace_nan_text (critmat r)) (replace_nan_text (fiss_form r))
        (replace_nan_text (isomat r)) (replace_nan_text (modmat r))
        (replace_nan_text (reflmat r)) (replace_nan_text (reflthick r)).

(** Messages sent to the page. *)
Inductive notice : Type :=
| file_not_found                                   (* st.error *)
| too_few_points (curve_title : text)              (* st.warning *)
| spline_failed (curve_title : text) (k n : Z)     (* st.error *)
| no_curve_found                                   (* st.sidebar.warning *)
| unknown_x_variable (name : string)               (* st.sidebar.warning *)
| unknown_y_variable (name : string).              (* st.sidebar.warning *)

(** What [get_fitted_spline] returns when it does not return six [None]. *)
Record fit : Type := mkFit {
  spline_x : scipy.spline;
  spline_y : scipy.spline;
  x_data : list Q;
  y_data : list Q;
  x_var : text;
  y_var : text
}.

(** [df[df['title'] == curve_title]] *)
Definition curve_rows (curve_title : text) (df : DataFrame Q) : DataFrame Q :=
  filter (fun r => text_eqb (title r) curve_title) df.

(** [get_fitted_spline(curve_title, df)]: the messages it sends and the
    tuple it returns ([None] for the tuple of six [None]). *)
Definition get_fitted_spline (curve_title : text) (df : DataFrame Q)
  : result (list notice * option fit) :=
  let curve_df := curve_rows curve_title df in
  let n_points := Z.of_nat (length curve_df) in
  if (n_points <? 2)%Z then
    Ok ([too_few_points curve_title], None)
  else
    let x_data := map X_Value curve_df in
    let y_data := map Y_Value curve_df in
    r0 <- match curve_df with            (* .iloc[0] *)
          | [] => Raise IndexError
          | r0 :: _ => Ok r0
          end ;;
    let x_var := X_Variable r0 in
    let y_var := Y_Variable r0 in
    let t_data := map inject_Z (np.arange n_points) in
    let k_spline := Z.min 3 (n_points - 1) in
    match
      (spline_x <- scipy.UnivariateSpline t_data x_data 0 k_spline ;;
       spline_y <- scipy.UnivariateSpline t_data y_data 0 k_spline ;;
       Ok (spline_x, spline_y))
    with
    | Ok (spline_x, spline_y) =>
        Ok ([], Some (mkFit spline_x spline_y x_data y_data x_var y_var))
    | Raise _ =>                         (* except Exception *)
        Ok ([spline_failed curve_title k_spline n_points], None)
    end.

(** ** 3. Loading and the page *)

(** The sidebar: for every select box the index the user picked, [None]
    while the box shows its default. *)
Record sidebar : Type := mkSidebar {
  pick_geometry : option nat;
  pick_fiss_element : option nat;
  pick_critmat : option nat;
  pick_fiss_form : option nat;
  pick_isomat : option nat;
  pick_modmat : option nat;
  pick_reflmat : option nat;
  pick_reflthick : option nat;
  pick_x_var : option nat;
  pick_y_var : option nat;
  pick_title : option nat;
  pick_x_unit : option nat;
  pick_y_unit : option nat
}.

(** The two data frames handed to the chart. *)
Record chart : Type := mkChart {
  x_unit_selected : option string;
  y_unit_selected : option string;
  x_conv_factor : Q;
  y_conv_factor : Q;
  plot_df_scatter : list (Q * Q * Z);   (* x, y, order_col *)
  plot_df_line : list (Q * Q * Q)       (* x, y, order_col *)
}.

(** What one run of the script leaves on the page. *)
Record page : Type := mkPage {
  notices : list notice;
  curve_titles : list text;
  selected_title : option text;
  fitted : option fit;
  drawn : option chart
}.

(** Python truth of a selected title: the empty string is false, NaN (a
    float) is true. *)
Definition truthy (selected : text) : bool :=
  match selected with
  | None => true
  | Some s => negb (String.eqb s "")
  end.

(** One filter of the sidebar, on a column of text: the options are "All"
    and the distinct present values of the column; any other pick than
    "All" keeps the rows that carry it. *)
Definition filter_by (col : Row Q -> text) (pick : option nat)
    (filtered_df : DataFrame Q) : result (DataFrame Q) :=
  let options :=
    np.insert0 (pd.unique String.eqb (pd.dropna (map col filtered_df))) "All" in
  selected <- st.selectbox options 0 pick ;;
  match selected with
  | Some s =>
      if negb (String.eqb s "All") then
        Ok (filter (fun r => text_eq (col r) s) filtered_df)
      else Ok filtered_df
  | None => Ok (filter (fun _ => false) filtered_df)
  end.

(** The ten filters, in the order of the script. *)
Definition filters (ui : sidebar) (df : DataFrame Q) : result (DataFrame Q) :=
  filtered_df <- filter_by geometry (pick_geometry ui) df ;;
  filtered_df <- filter_by fiss_element (pick_fiss_element ui) filtered_df ;;
  filtered_df <- filter_by critmat (pick_critmat ui) filtered_df ;;
  filtered_df <- filter_by fiss_form (pick_fiss_form ui) filtered_df ;;
  filtered_df <- filter_by isomat (pick_isomat ui) filtered_df ;;
  filtered_df <- filter_by modmat (pick_modmat ui) filtered_df ;;
  filtered_df <- filter_by reflmat (pick_reflmat ui) filtered_df ;;
  filtered_df <- filter_by reflthick (pick_reflthick ui) filtered_df ;;
  filtered_df <- filter_by X_Variable (pick_x_var ui) filtered_df ;;
  filter_by Y_Variable (pick_y_var ui) filtered_df.

(** The curve select box: the distinct titles of the filtered rows, and
    the one picked; a warning and no selection when there is none. *)
Definition choose_title (ui : sidebar) (filtered_df : DataFrame Q)
  : result (list notice * list text * option text) :=
  let curve_titles := pd.unique text_same (map title filtered_df) in
  match curve_titles with
  | [] => Ok ([no_curve_found], curve_titles, None)
  | _ :: _ =>
      selected_title <- st.selectbox curve_titles 0 (pick_title ui) ;;
      Ok ([], curve_titles, selected_title)
  end.

(** The unit select box of one axis: the variable name itself when the
    category is unknown, else the pick among the category's units, the
    "base" unit being the default. *)
Definition select_unit (unknown : string -> notice) (var_name : string)
    (info : string * string * list string) (pick : option nat)
  : result (list notice * option string) :=
  let '(category, base_unit, options) := info in
  if String.eqb category "unknown" then
    Ok ([unknown var_name], Some var_name)
  else
    index <- list_index options base_unit ;;
    selected <- st.selectbox options index pick ;;
    Ok ([], selected).

(** [CONVERSION_FACTORS[category][unit]] with a unit that may be [None]. *)
Definition factor_of (category base_unit : string) (selected : option string)
  : result Q :=
  match selected with
  | Some unit_selected => conv_factor category base_unit unit_selected
  | None =>
      if negb (String.eqb category "unknown") then Raise KeyError
      else Ok 1.0%Q
  end.

(** [x.split(' ')] on a cell: a missing value (a float) has no [split]. *)
Definition as_str (a : text) : result string :=
  match a with
  | Some s => Ok s
  | None => Raise AttributeError
  end.

(** [get_unit_info] on a cell.  A missing name is in no table and takes
    the unknown branch; the page then fails at [split] before the tuple
    is looked at, so its two names are left empty here. *)
Definition unit_info_of (a : text) : result (string * string * list string) :=
  match a with
  | Some var_name => get_unit_info var_name
  | None => Ok ("unknown", "", [])
  end.

(** ** Sample instances of the two parameters and a sample file *)

(** A reader of unsigned decimal integers, as an instance of the number
    reader. *)
Fixpoint digits_value (s : string) (acc : N) : option N :=
  match s with
  | EmptyString => Some acc
  | String c s' =>
      let n := Ascii.N_of_ascii c in
      if ((48 <=? n) && (n <=? 57))%N
      then digits_value s' (acc * 10 + (n - 48))%N
      else None
  end.

Definition parse_digits (s : string) : option Q :=
  match s with
  | EmptyString => None
  | String _ _ => option_map (fun n => inject_Z (Z.of_N n)) (digits_value s 0)
  end.

(** The broken line through the data, as an instance of spline
    evaluation: the spline of degree 1 with [s = 0]. *)
Fixpoint broken_line (x y : list Q) (t : Q) : Q :=
  match x, y with
  | a :: x', b :: y' =>
      match x', y' with
      | a' :: _, b' :: _ =>
          if Qle_bool t a' then (b + (t - a) * ((b' - b) / (a' - a)))%Q
          else broken_line x' y' t
      | _, _ => b
      end
  | _, _ => 0%Q
  end.

Definition broken_line_call (sp : scipy.spline) (t : Q) : Q :=
  broken_line (scipy.sp_x sp) (scipy.sp_y sp) t.

Definition sample_row (curve : string) (x y : cell) (x_name y_name : string)
    (shape : string) : Row cell :=
  mkRow (Some curve) x y (Some x_name) (Some y_name) (Some shape)
        (Some "uranium") (Some "U(93.2)") (Some "metal") (Some "U-235") None
        (Some "water") (Some "thick").

Definition sample_csv : DataFrame cell :=
  [ sample_row "A" (CNum 0) (CNum 0) "Diameter in" "critmass kg" "sphere";
    sample_row "A" (CNum 1) (CNum 1) "Diameter in" "critmass kg" "sphere";
    sample_row "A" (CStr "n/a") (CNum 7) "Diameter in" "critmass kg" "sphere";
    sample_row "A" (CNum 2) (CNum 4) "Diameter in" "critmass kg" "sphere";
    sample_row "A" (CNum 3) (CNum 9) "Diameter in" "critmass kg" "sphere";
    sample_row "B" (CStr "5") (CNum 2) "Foo bar" "Height in" "cylinder";
    sample_row "B" CNaN (CNum 3) "Foo bar" "Height in" "cylinder";
    sample_row "C" (CNum 3) (CNum 1) "Foo bar" "volume L" "slab";
    sample_row "C" (CNum 1) (CNum 2) "Foo bar" "volume L" "slab";
    sample_row "C" (CNum 2) (CStr "0") "Foo bar" "volume L" "slab" ].

Definition no_picks : sidebar :=
  mkSidebar None None None None None None None None None None None None None.

Definition pick (shape title x_unit : option nat) : sidebar :=
  mkSidebar shape None None None None None None None None None title x_unit
            None.

(** A file whose only curve has no X variable name. *)
Definition unnamed_csv : DataFrame cell :=
  [ mkRow (Some "D") (CNum 0) (CNum 1) None (Some "critmass kg")
          (Some "sphere") None None None None None None None;
    mkRow (Some "D") (CNum 1) (CNum 2) None (Some "critmass kg")
          (Some "sphere") None None None None None None None ].

(** A row with its attribute columns emptied. *)
Definition strip_attributes (r : Row Q) : Row Q :=
  mkRow (title r) (X_Value r) (Y_Value r) (X_Variable r) (Y_Variable r)
        None None None None None None None None.

(** The page, fit and chart of a run, with empty ones where there is none. *)
Definition page_of (run : result page) : page :=
  match run with
  | Ok pg => pg
  | Raise _ => mkPage [] [] None None None
  end.

Definition fit_on (pg : page) : fit :=
  match fitted pg with
  | Some f => f
  | None => mkFit (scipy.mkSpline [] [] 0 0) (scipy.mkSpline [] [] 0 0)
                  [] [] None None
  end.

Definition chart_on (pg : page) : chart :=
  match drawn pg with
  | Some c => c
  | None => mkChart None None 0 0 [] []
  end.

Section CritView.

(** The reading of a string cell as a number by [pd.to_numeric]
    ([None]: it is not a number). *)
Variable parse_number : string -> option Q.

(** Evaluation of a spline object, [spline(t)]. *)
Variable spline_call : scipy.spline -> Q -> Q.

(** A condition on the spline objects, assumed and not proved here: a
    spline built with [s = 0] passes through the data it was built from.
    This is what scipy documents for finite data, up to rounding; the
    results on resampling that need it carry it as their premise. *)
Hypothesis spline_interpolates :
  forall x y s k sp,
    scipy.UnivariateSpline x y s k = Ok sp -> (s == 0)%Q ->
    forall i t, (i < length x)%nat -> (t == nth i x 0)%Q ->
                (spline_call sp t == nth i y 0)%Q.

(** [pd.to_numeric(column, errors='coerce')], cell by cell. *)
Definition to_numeric (c : cell) : option Q :=
  match c with
  | CNum q => Some q
  | CStr s => parse_number s
  | CNaN => None
  end.

(** [df.dropna(subset=['X_Value', 'Y_Value'])] *)
Fixpoint dropna_values (df : DataFrame (option Q)) : DataFrame Q :=
  match df with
  | [] => []
  | r :: df' =>
      match X_Value r, Y_Value r with
      | Some x, Some y => with_values r x y :: dropna_values df'
      | _, _ => dropna_values df'
      end
  end.

(** [load_data(filepath)]; [csv] is the content of the file as
    [pd.read_csv] delivers it, [None] when there is no such file. *)
Definition load_data (csv : option (DataFrame cell))
  : list notice * DataFrame Q :=
  match csv with
  | Some df =>
      let df := map replace_nan df in
      let df :=
        map (fun r => with_values r (to_numeric (X_Value r))
                                    (to_numeric (Y_Value r))) df in
      ([], dropna_values df)
  | None => ([file_not_found], [])
  end.

(** [spline(t_fit)] for both splines at [count] evenly spaced parameters
    over the samples ([count] is 200 in the script). *)
Definition resample (f : fit) (count : nat) : list (Q * Q * Q) :=
  let t_fit :=
    np.linspace 0 (inject_Z (Z.of_nat (length (x_data f)) - 1)) count in
  let x_fit_raw := map (spline_call (spline_x f)) t_fit in
  let y_fit_raw := map (spline_call (spline_y f)) t_fit in
  combine (combine x_fit_raw y_fit_raw) t_fit.

(** The chart data of a fitted curve under the two conversion factors. *)
Definition plot_data (f : fit) (x_conv_factor y_conv_factor : Q)
  : list (Q * Q * Z) * list (Q * Q * Q) :=
  let x_display := scale (x_data f) x_conv_factor in
  let y_display := scale (y_data f) y_conv_factor in
  let plot_df_scatter :=
    combine (combine x_display y_display)
            (np.arange (Z.of_nat (length x_display))) in
  let plot_df_line :=
    map (fun p => let '(x, y, t) := p in
                  ((x * x_conv_factor)%Q, (y * y_conv_factor)%Q, t))
        (resample f 200) in
  (plot_df_scatter, plot_df_line).

(** The script below its function definitions, up to the chart data. *)
Definition main (csv : option (DataFrame cell)) (ui : sidebar) : result page :=
  let '(loaded, df) := load_data csv in
  match df with
  | [] => Ok (mkPage loaded [] None None None)
  | _ :: _ =>
      filtered_df <- filters ui df ;;
      '(found, curve_titles, selected_title) <-
        choose_title ui filtered_df ;;
      let idle := mkPage (loaded ++ found) curve_titles selected_title None None in
      match selected_title with
      | None => Ok idle
      | Some curve_title =>
          if truthy curve_title then
            '(fit_said, fitted) <- get_fitted_spline curve_title df ;;
            let said := loaded ++ found ++ fit_said in
            match fitted with
            | None => Ok (mkPage said curve_titles selected_title None None)
            | Some f =>
                x_info <- unit_info_of (x_var f) ;;
                y_info <- unit_info_of (y_var f) ;;
                x_var_name <- as_str (x_var f) ;;
                '(x_said, x_unit_selected) <-
                  select_unit unknown_x_variable x_var_name x_info
                              (pick_x_unit ui) ;;
                y_var_name <- as_str (y_var f) ;;
                '(y_said, y_unit_selected) <-
                  select_unit unknown_y_variable y_var_name y_info
                              (pick_y_unit ui) ;;
                let '(x_category, x_base_unit, _) := x_info in
                let '(y_category, y_base_unit, _) := y_info in
                x_conv_factor <-
                  factor_of x_category x_base_unit x_unit_selected ;;
                y_conv_factor <-
                  factor_of y_category y_base_unit y_unit_selected ;;
                let '(plot_df_scatter, plot_df_line) :=
                  plot_data f x_conv_factor y_conv_factor in
                Ok (mkPage (said ++ x_said ++ y_said) curve_titles
                           selected_title (Some f)
                           (Some (mkChart x_unit_selected y_unit_selected
                                          x_conv_factor y_conv_factor
                                          plot_df_scatter plot_df_line)))
            end
          else Ok idle
      end
  end.

(** ** Closed forms used in the statements *)

(** The knots the script hands to scipy. *)
Definition knots (n : nat) : list Q := map inject_Z (np.arange (Z.of_nat n)).

(** The tuple the fit returns for a curve of two points or more. *)
Definition fit_of (curve_df : DataFrame Q) : fit :=
  let n := length curve_df in
  let k := Z.min 3 (Z.of_nat n - 1) in
  mkFit (scipy.mkSpline (knots n) (map X_Value curve_df) 0 k)
        (scipy.mkSpline (knots n) (map Y_Value curve_df) 0 k)
        (map X_Value curve_df) (map Y_Value curve_df)
        (match curve_df with r0 :: _ => X_Variable r0 | [] => None end)
        (match curve_df with r0 :: _ => Y_Variable r0 | [] => None end).

(** The tuple a run works with once a title is selected: the fit of that
    title over the whole loaded table. *)
Definition fit_for (df : DataFrame Q) (selected : option text) : option fit :=
  match selected with
  | Some curve_title =>
      if truthy curve_title then
        match get_fitted_spline curve_title df with
        | Ok (_, fitted) => fitted
        | Raise _ => None
        end
      else None
  | None => None
  end.

(** The reading of [get_unit_info] on a bound variable as "category, the
    category's base unit, all its units": the unit returned has factor 1.0
    and is the first listed. *)
Definition returns_category_base_unit (var_name : string) : Prop :=
  exists category base_unit table v,
    get_unit_info var_name = Ok (category, base_unit, dict_keys table) /\
    dict_get CONVERSION_FACTORS category = Some table /\
    dict_get table base_unit = Some v /\ (v == 1.0)%Q /\
    hd_error (dict_keys table) = Some base_unit.

(** [in_order l l']: [l] is [l'] with some entries left out, the others
    in their order. *)
Inductive in_order {A : Type} : list A -> list A -> Prop :=
| in_order_nil : in_order [] []
| in_order_skip (a : A) (l l' : list A) : in_order l l' -> in_order l (a :: l')
| in_order_keep (a : A) (l l' : list A) :
    in_order l l' -> in_order (a :: l) (a :: l').

(** A value cell that holds no number: a missing value, or a string that
    does not read as a number. *)
Definition not_a_number (c : cell) : Prop :=
  match c with
  | CNum _ => False
  | CStr s => parse_number s = None
  | CNaN => True
  end.

(** The row as the loaded table holds it, if it holds it at all. *)
Definition reading (r : Row cell) : option (Row Q) :=
  let r' := replace_nan r in
  match to_numeric (X_Value r'), to_numeric (Y_Value r') with
  | Some x, Some y => Some (with_values r' x y)
  | _, _ => None
  end.

(** The sample points of a table, row by row. *)
Definition samples (df : DataFrame Q) : list (Q * Q) :=
  map (fun r => (X_Value r, Y_Value r)) df.

(** The five columns of a row that the fit looks at. *)
Definition fitted_columns (r : Row Q) : text * Q * Q * text * text :=
  (title r, X_Value r, Y_Value r, X_Variable r, Y_Variable r).

(** ** Facts about the embedding *)

(** *** Dictionaries *)

Lemma dict_get_In {V : Type} (d : dict V) (k : string) (v : V) :
  dict_get d k = Some v -> In (k, v) d.
Proof.
  induction d as [| [k' v'] d IH]; simpl; [discriminate |].
  destruct (String.eqb_spec k' k) as [-> | Hne].
  - intros [= ->]. now left.
  - intros H. right. now apply IH.
Qed.

Lemma dict_item_get {V : Type} (d : dict V) (k : string) (v : V) :
  dict_get d k = Some v -> dict_item d k = Ok v.
Proof. unfold dict_item. now intros ->. Qed.

(** *** The tables *)

(** Every factor of the table is positive. *)
Lemma factors_positive (category unit : string) (units : dict Q) (v : Q) :
  dict_get CONVERSION_FACTORS category = Some units ->
  dict_get units unit = Some v ->
  (0 < v)%Q.
Proof.
  intros Hc Hu. apply dict_get_In in Hc. apply dict_get_In in Hu.
  simpl in Hc.
  repeat (destruct Hc as [Hc | Hc];
          [ injection Hc as <- <-; simpl in Hu;
            repeat (destruct Hu as [Hu | Hu];
                    [ injection Hu as <- <-; reflexivity |]);
            contradiction |]).
  contradiction.
Qed.

(** No category is called "unknown". *)
Lemma category_known (category : string) (units : dict Q) :
  dict_get CONVERSION_FACTORS category = Some units ->
  String.eqb category "unknown" = false.
Proof.
  intros H. destruct (String.eqb_spec category "unknown") as [-> |]; [| easy].
  discriminate H.
Qed.

(** Every binding names a category of the table and one of its units. *)
Lemma binding_registered (var_name category unit : string) :
  dict_get VARIABLE_TO_CATEGORY var_name = Some (category, unit) ->
  exists units v,
    dict_get CONVERSION_FACTORS category = Some units /\
    dict_get units unit = Some v.
Proof.
  intros H. apply dict_get_In in H. simpl in H.
  repeat (destruct H as [H | H];
          [ injection H as <- <- <-; eexists; eexists; split; reflexivity |]).
  contradiction.
Qed.

(** [get_unit_info] raises on no name. *)
Lemma get_unit_info_total (var_name : string) :
  exists info, get_unit_info var_name = Ok info.
Proof.
  unfold get_unit_info, dict_mem, dict_item.
  destruct (dict_get VARIABLE_TO_CATEGORY var_name) as [[category unit] |] eqn:B;
    [| eexists; reflexivity].
  destruct (binding_registered _ _ _ B) as (units & v & Hc & _).
  cbn [bind]. rewrite Hc. eexists. reflexivity.
Qed.

(** *** The fit *)

Lemma all_diff_seq (a m : nat) :
  scipy.all_diff scipy.Qlt_bool
    (map (fun i => inject_Z (Z.of_nat i)) (seq a m)) = true.
Proof.
  revert a. induction m as [| m IH]; intros a; [reflexivity |].
  simpl. destruct m as [| m]; [reflexivity |].
  specialize (IH (S a)). simpl in IH |- *. rewrite IH, andb_true_r.
  unfold scipy.Qlt_bool, Qle_bool. simpl.
  apply negb_true_iff, Z.leb_gt. lia.
Qed.

Lemma arange_length (n : nat) : length (np.arange (Z.of_nat n)) = n.
Proof. unfold np.arange. now rewrite length_map, length_seq, Nat2Z.id. Qed.

Lemma arange_nth (n i : nat) :
  (i < n)%nat -> nth i (np.arange (Z.of_nat n)) 0%Z = Z.of_nat i.
Proof.
  intros Hi. unfold np.arange. rewrite Nat2Z.id.
  change 0%Z with (Z.of_nat 0). rewrite map_nth, seq_nth; [reflexivity | lia].
Qed.

Lemma knots_length (n : nat) : length (knots n) = n.
Proof. unfold knots. now rewrite length_map, arange_length. Qed.

Lemma knots_nth (n i : nat) :
  (i < n)%nat -> nth i (knots n) 0%Q = inject_Z (Z.of_nat i).
Proof.
  intros Hi. unfold knots. change 0%Q with (inject_Z 0).
  rewrite map_nth. now rewrite arange_nth.
Qed.

(** scipy accepts the script's arguments whenever there are two points or
    more. *)
Lemma UnivariateSpline_accepts (n : nat) (y : list Q) :
  length y = n -> (2 <= n)%nat ->
  scipy.UnivariateSpline (knots n) y 0 (Z.min 3 (Z.of_nat n - 1)) =
  Ok (scipy.mkSpline (knots n) y 0 (Z.min 3 (Z.of_nat n - 1))).
Proof.
  intros Hy Hn. unfold scipy.UnivariateSpline.
  replace (scipy.Qlt_bool 0 0) with false by reflexivity.
  assert (Hinc : scipy.all_diff scipy.Qlt_bool (knots n) = true).
  { unfold knots, np.arange. rewrite map_map. apply all_diff_seq. }
  rewrite Hinc, knots_length, Hy, Nat.eqb_refl. simpl negb at 1 2.
  cbv iota.
  replace ((1 <=? Z.min 3 (Z.of_nat n - 1))%Z &&
           (Z.min 3 (Z.of_nat n - 1) <=? 5)%Z) with true
    by (symmetry; apply andb_true_iff; split; apply Z.leb_le; lia).
  replace (Qle_bool 0 0) with true by reflexivity.
  replace (Z.min 3 (Z.of_nat n - 1) <? Z.of_nat n)%Z with true
    by (symmetry; apply Z.ltb_lt; lia).
  reflexivity.
Qed.

Lemma get_fitted_spline_fits (curve_title : text) (df : DataFrame Q) :
  (2 <= length (curve_rows curve_title df))%nat ->
  get_fitted_spline curve_title df =
  Ok ([], Some (fit_of (curve_rows curve_title df))).
Proof.
  intros Hn. unfold get_fitted_spline, fit_of.
  replace (Z.of_nat (length (curve_rows curve_title df)) <? 2)%Z with false
    by (symmetry; apply Z.ltb_ge; lia).
  fold (knots (length (curve_rows curve_title df))).
  rewrite !UnivariateSpline_accepts by (rewrite ?length_map; auto).
  destruct (curve_rows curve_title df) as [| r0 rest]; [simpl in Hn; lia |].
  reflexivity.
Qed.

Lemma get_fitted_spline_few (curve_title : text) (df : DataFrame Q) :
  (length (curve_rows curve_title df) < 2)%nat ->
  get_fitted_spline curve_title df = Ok ([too_few_points curve_title], None).
Proof.
  intros Hn. unfold get_fitted_spline.
  replace (Z.of_nat (length (curve_rows curve_title df)) <? 2)%Z with true
    by (symmetry; apply Z.ltb_lt; lia).
  reflexivity.
Qed.

(** The fit never raises and returns a tuple exactly for the curves of two
    points or more. *)
Lemma get_fitted_spline_cases (curve_title : text) (df : DataFrame Q) :
  get_fitted_spline curve_title df =
  if (length (curve_rows curve_title df) <? 2)%nat
  then Ok ([too_few_points curve_title], None)
  else Ok ([], Some (fit_of (curve_rows curve_title df))).
Proof.
  destruct (Nat.ltb_spec (length (curve_rows curve_title df)) 2).
  - now apply get_fitted_spline_few.
  - now apply get_fitted_spline_fits.
Qed.

(** *** The page *)

Tactic Notation "run_bind" hyp(H) "as" simple_intropattern(p) "eqn" ident(E) :=
  match type of H with
  | bind ?m _ = Ok _ =>
      destruct m as [p |] eqn:E; cbn [bind] in H; [| discriminate H]
  end.

Tactic Notation "run_bind" hyp(H) "as" simple_intropattern(p) :=
  let E := fresh "E" in run_bind H as p eqn E.

(** The fit shown on a page is the fit of the selected title over the whole
    loaded table. *)
Lemma main_fitted (csv : option (DataFrame cell)) (ui : sidebar) (pg : page) :
  main csv ui = Ok pg ->
  fitted pg = fit_for (snd (load_data csv)) (selected_title pg).
Proof.
  unfold main. destruct (load_data csv) as [loaded df]. cbn [snd].
  destruct df as [| r df'].
  { intros [= <-]. reflexivity. }
  set (df := r :: df'). clearbody df.
  intros H. run_bind H as filtered_df. run_bind H as [[found titles] selected].
  destruct selected as [curve_title |]; [| injection H as <-; reflexivity].
  destruct (truthy curve_title) eqn:T;
    [| injection H as <-; cbn; now rewrite T].
  run_bind H as [fit_said fitted0].
  destruct fitted0 as [f |];
    [| injection H as <-; cbn; now rewrite T, E1].
  run_bind H as [[x_category x_base_unit] x_opts].
  run_bind H as [[y_category y_base_unit] y_opts].
  run_bind H as x_var_name. run_bind H as [x_said x_unit].
  run_bind H as y_var_name. run_bind H as [y_said y_unit].
  run_bind H as xf. run_bind H as yf.
  destruct (plot_data f xf yf). injection H as <-. cbn. now rewrite T, E1.
Qed.

(** What stands behind a chart on the page. *)
Lemma main_drawn (csv : option (DataFrame cell)) (ui : sidebar) (pg : page)
    (c : chart) :
  main csv ui = Ok pg ->
  drawn pg = Some c ->
  exists f xv yv x_info y_info x_said y_said,
    fitted pg = Some f /\
    x_var f = Some xv /\ y_var f = Some yv /\
    get_unit_info xv = Ok x_info /\ get_unit_info yv = Ok y_info /\
    select_unit unknown_x_variable xv x_info (pick_x_unit ui) =
      Ok (x_said, x_unit_selected c) /\
    select_unit unknown_y_variable yv y_info (pick_y_unit ui) =
      Ok (y_said, y_unit_selected c) /\
    factor_of (fst (fst x_info)) (snd (fst x_info)) (x_unit_selected c) =
      Ok (x_conv_factor c) /\
    factor_of (fst (fst y_info)) (snd (fst y_info)) (y_unit_selected c) =
      Ok (y_conv_factor c) /\
    plot_data f (x_conv_factor c) (y_conv_factor c) =
      (plot_df_scatter c, plot_df_line c).
Proof.
  unfold main. destruct (load_data csv) as [loaded df].
  destruct df as [| r df'].
  { intros [= <-]. discriminate. }
  set (df := r :: df'). clearbody df.
  intros H. run_bind H as filtered_df. run_bind H as [[found titles] selected].
  destruct selected as [curve_title |]; [| injection H as <-; discriminate].
  destruct (truthy curve_title) eqn:T; [| injection H as <-; discriminate].
  run_bind H as [fit_said fitted0].
  destruct fitted0 as [f |]; [| injection H as <-; discriminate].
  run_bind H as [[x_category x_base_unit] x_opts] eqn Ex.
  run_bind H as [[y_category y_base_unit] y_opts] eqn Ey.
  run_bind H as x_var_name eqn Nx. run_bind H as [x_said x_unit] eqn Sx.
  run_bind H as y_var_name eqn Ny. run_bind H as [y_said y_unit] eqn Sy.
  run_bind H as xf eqn Fx. run_bind H as yf eqn Fy.
  destruct (plot_data f xf yf) as [scatter line] eqn:P.
  injection H as <-. cbn. intros [= <-]. cbn.
  destruct (x_var f) as [xv |] eqn:Xv; [| discriminate].
  destruct (y_var f) as [yv |] eqn:Yv; [| discriminate].
  injection Nx as ->. injection Ny as ->. cbn in Ex, Ey.
  exists f, x_var_name, y_var_name, (x_category, x_base_unit, x_opts),
    (y_category, y_base_unit, y_opts), x_said, y_said.
  cbn [fst snd]. repeat split; assumption.
Qed.

Lemma get_fitted_spline_Some (curve_title : text) (df : DataFrame Q)
    (said : list notice) (f : fit) :
  get_fitted_spline curve_title df = Ok (said, Some f) ->
  (2 <= length (curve_rows curve_title df))%nat /\
  said = [] /\ f = fit_of (curve_rows curve_title df).
Proof.
  rewrite get_fitted_spline_cases.
  destruct (Nat.ltb_spec (length (curve_rows curve_title df)) 2);
    [discriminate |].
  intros [= <- <-]. auto.
Qed.

Lemma fit_for_Some (df : DataFrame Q) (selected : option text) (f : fit) :
  fit_for df selected = Some f ->
  exists curve_title,
    selected = Some curve_title /\ truthy curve_title = true /\
    (2 <= length (curve_rows curve_title df))%nat /\
    f = fit_of (curve_rows curve_title df).
Proof.
  unfold fit_for. destruct selected as [curve_title |]; [| discriminate].
  destruct (truthy curve_title) eqn:T; [| discriminate].
  rewrite get_fitted_spline_cases.
  destruct (Nat.ltb_spec (length (curve_rows curve_title df)) 2);
    [discriminate |].
  intros [= <-]. exists curve_title. repeat split; assumption.
Qed.

(** *** Lists *)

Lemma map_fst_combine {A B : Type} (l : list A) (l' : list B) :
  length l = length l' -> map fst (combine l l') = l.
Proof.
  revert l'. induction l as [| a l IH]; intros [| b l']; simpl;
    try discriminate; [reflexivity |].
  intros [= H]. now rewrite IH.
Qed.

Lemma map_snd_combine {A B : Type} (l : list A) (l' : list B) :
  length l = length l' -> map snd (combine l l') = l'.
Proof.
  revert l'. induction l as [| a l IH]; intros [| b l']; simpl;
    try discriminate; [reflexivity |].
  intros [= H]. now rewrite IH.
Qed.

Lemma scale_one (values : list Q) : Forall2 Qeq (scale values 1.0) values.
Proof.
  induction values as [| v values IH]; simpl; constructor; [| exact IH].
  setoid_replace (1.0)%Q with 1%Q by reflexivity. apply Qmult_1_r.
Qed.

Lemma fit_of_lengths (curve_df : DataFrame Q) :
  length (x_data (fit_of curve_df)) = length curve_df /\
  length (y_data (fit_of curve_df)) = length curve_df.
Proof. unfold fit_of. cbn. now rewrite !length_map. Qed.

(** *** Order *)

Lemma in_order_refl {A : Type} (l : list A) : in_order l l.
Proof. induction l; constructor; assumption. Qed.

Lemma in_order_filter {A : Type} (p : A -> bool) (l : list A) :
  in_order (filter p l) l.
Proof.
  induction l as [| a l IH]; simpl; [constructor |].
  destruct (p a); constructor; assumption.
Qed.

Lemma in_order_trans {A : Type} (l1 l2 l3 : list A) :
  in_order l1 l2 -> in_order l2 l3 -> in_order l1 l3.
Proof.
  intros H12 H23. revert l1 H12.
  induction H23 as [| a l2 l3 H23 IH | a l2 l3 H23 IH]; intros l1 H12.
  - exact H12.
  - constructor. now apply IH.
  - inversion H12 as [| b k k' Hk | b k k' Hk]; subst;
      constructor; now apply IH.
Qed.

Lemma in_order_In {A : Type} (l l' : list A) (a : A) :
  in_order l l' -> In a l -> In a l'.
Proof.
  induction 1 as [| b l l' H IH | b l l' H IH]; simpl; intuition.
Qed.

Lemma in_order_map {A B : Type} (g : A -> B) (l l' : list A) :
  in_order l l' -> in_order (map g l) (map g l').
Proof. induction 1; simpl; constructor; assumption. Qed.

Lemma in_order_dropna {A : Type} (l : list (option A)) :
  in_order (map Some (pd.dropna l)) l.
Proof.
  induction l as [| [a |] l IH]; simpl; constructor; assumption.
Qed.

Lemma unique_from_In {A : Type} (eqb : A -> A -> bool) (seen l : list A)
    (a : A) :
  In a (pd.unique_from eqb seen l) -> In a l.
Proof.
  revert seen. induction l as [| b l IH]; intros seen; simpl; [easy |].
  destruct (existsb (eqb b) seen); simpl; intros H.
  - right. eapply IH, H.
  - destruct H as [-> | H]; [now left | right; eapply IH, H].
Qed.

Lemma unique_In {A : Type} (eqb : A -> A -> bool) (l : list A) (a : A) :
  In a (pd.unique eqb l) -> In a l.
Proof. apply unique_from_In. Qed.

(** *** The sidebar *)

Lemma filter_by_in_order (col : Row Q -> text) (pick : option nat)
    (df filtered_df : DataFrame Q) :
  filter_by col pick df = Ok filtered_df -> in_order filtered_df df.
Proof.
  unfold filter_by. intros H. run_bind H as selected.
  destruct selected as [s |].
  - destruct (negb (s =? "All")); injection H as <-;
      [apply in_order_filter | apply in_order_refl].
  - injection H as <-. apply in_order_filter.
Qed.

Lemma filters_in_order (ui : sidebar) (df filtered_df : DataFrame Q) :
  filters ui df = Ok filtered_df -> in_order filtered_df df.
Proof.
  unfold filters. intros H.
  repeat (let d := fresh "d" in let E := fresh "E" in
          run_bind H as d eqn E; apply filter_by_in_order in E).
  apply filter_by_in_order in H.
  repeat (eapply in_order_trans; [eassumption |]).
  apply in_order_refl.
Qed.

Lemma choose_title_In (ui : sidebar) (filtered_df : DataFrame Q)
    (found : list notice) (titles : list text) (selected : option text) :
  choose_title ui filtered_df = Ok (found, titles, selected) ->
  titles = pd.unique text_same (map title filtered_df) /\
  (forall t, In t titles -> In t (map title filtered_df)) /\
  (forall t, selected = Some t -> In t titles).
Proof.
  unfold choose_title.
  destruct (pd.unique text_same (map title filtered_df)) as [| t0 ts] eqn:U.
  - intros [= <- <- <-]. repeat split; [easy | discriminate].
  - intros H. run_bind H as sel. injection H as <- <- <-.
    split; [reflexivity |]. split.
    + intros t Ht. apply (unique_In text_same). now rewrite U.
    + intros t ->. unfold st.selectbox in E.
      destruct (nth_error (t0 :: ts) match pick_title ui with
                                     | Some i => i
                                     | None => 0%nat
                                     end) eqn:N; [| discriminate].
      injection E as ->. eapply nth_error_In, N.
Qed.

(** *** Loading *)

Lemma load_data_reading (raw : DataFrame cell) :
  load_data (Some raw) = ([], pd.dropna (map reading raw)).
Proof.
  unfold load_data. f_equal. rewrite map_map.
  induction raw as [| r raw IH]; [reflexivity |].
  cbn [map dropna_values pd.dropna]. rewrite IH.
  generalize (pd.dropna (map reading raw)). intros rest.
  unfold reading. cbn [with_values X_Value Y_Value].
  destruct (to_numeric (X_Value (replace_nan r)));
    [destruct (to_numeric (Y_Value (replace_nan r))) |]; reflexivity.
Qed.

Lemma dropna_app {A : Type} (l l' : list (option A)) :
  pd.dropna (l ++ l') = pd.dropna l ++ pd.dropna l'.
Proof.
  induction l as [| [a |] l IH]; simpl; [| rewrite IH |]; easy.
Qed.

Lemma not_a_number_dropped (c : cell) :
  not_a_number c -> to_numeric (replace_nan_cell c) = None.
Proof.
  destruct c as [q | s |]; simpl; [easy | | easy].
  intros H. destruct (s =? "nan"); easy.
Qed.

Lemma reading_None (r : Row cell) :
  not_a_number (X_Value r) \/ not_a_number (Y_Value r) -> reading r = None.
Proof.
  unfold reading. cbn.
  intros [H | H]; rewrite (not_a_number_dropped _ H); [easy |].
  now destruct (to_numeric (replace_nan_cell (X_Value r))).
Qed.

Lemma reading_Some (r : Row cell) (r' : Row Q) :
  reading r = Some r' ->
  ~ not_a_number (X_Value r) /\ ~ not_a_number (Y_Value r) /\
  to_numeric (replace_nan_cell (X_Value r)) = Some (X_Value r') /\
  to_numeric (replace_nan_cell (Y_Value r)) = Some (Y_Value r') /\
  title r' = replace_nan_text (title r).
Proof.
  intros H.
  assert (Hx : ~ not_a_number (X_Value r)).
  { intros N. rewrite reading_None in H by now left. discriminate. }
  assert (Hy : ~ not_a_number (Y_Value r)).
  { intros N. rewrite reading_None in H by now right. discriminate. }
  unfold reading in H. cbn in H.
  destruct (to_numeric (replace_nan_cell (X_Value r))); [| discriminate].
  destruct (to_numeric (replace_nan_cell (Y_Value r))); [| discriminate].
  injection H as <-. repeat split; assumption.
Qed.

Lemma In_dropna {A : Type} (l : list (option A)) (a : A) :
  In a (pd.dropna l) <-> In (Some a) l.
Proof.
  induction l as [| [b |] l IH]; simpl; [tauto | |].
  - rewrite IH. split; intros [H | H]; auto; left; congruence.
  - rewrite IH. split; [auto | intros [H | H]; [discriminate | exact H]].
Qed.

Lemma curve_rows_nil (t : string) (df : DataFrame Q) :
  ~ In (Some t) (map title df) -> curve_rows (Some t) df = [].
Proof.
  unfold curve_rows. induction df as [| r df IH]; [easy |].
  cbn [filter map]. intros H.
  destruct (text_eqb (title r) (Some t)) eqn:T.
  - exfalso. apply H. left. unfold text_eqb, text_eq in T.
    destruct (title r) as [s |]; [| discriminate].
    apply String.eqb_eq in T. now subst.
  - apply IH. intros Hin. apply H. now right.
Qed.

(** The titles offered and selected on a page are titles of loaded rows. *)
Lemma main_titles (csv : option (DataFrame cell)) (ui : sidebar) (pg : page) :
  main csv ui = Ok pg ->
  (forall t, In t (curve_titles pg) ->
             In t (map title (snd (load_data csv)))) /\
  (forall t, selected_title pg = Some t -> In t (curve_titles pg)).
Proof.
  unfold main. destruct (load_data csv) as [loaded df]. cbn [snd].
  destruct df as [| r df'].
  { intros [= <-]. cbn. split; [easy | discriminate]. }
  set (df := r :: df'). clearbody df.
  intros H. run_bind H as filtered_df eqn F.
  run_bind H as [[found titles] selected] eqn C.
  apply filters_in_order in F.
  destruct (choose_title_In _ _ _ _ _ C) as (_ & Hin & Hsel).
  assert (Hgoal :
    (forall t, In t titles -> In t (map title df)) /\
    (forall t, selected = Some t -> In t titles)).
  { split; [| exact Hsel]. intros t Ht. apply Hin in Ht.
    apply in_map_iff in Ht. destruct Ht as (r0 & <- & Hr0).
    apply in_map. eapply in_order_In; eassumption. }
  destruct selected as [curve_title |]; [| injection H as <-; exact Hgoal].
  destruct (truthy curve_title); [| injection H as <-; exact Hgoal].
  run_bind H as [fit_said fitted0].
  destruct fitted0 as [f |]; [| injection H as <-; exact Hgoal].
  run_bind H as [[x_category x_base_unit] x_opts].
  run_bind H as [[y_category y_base_unit] y_opts].
  run_bind H as x_var_name. run_bind H as [x_said x_unit].
  run_bind H as y_var_name. run_bind H as [y_said y_unit].
  run_bind H as xf. run_bind H as yf.
  destruct (plot_data f xf yf). injection H as <-. exact Hgoal.
Qed.

(** *** Evenly spaced parameters *)

Lemma removelast_length {A : Type} (l : list A) :
  length (removelast l) = pred (length l).
Proof.
  rewrite removelast_firstn_len, length_firstn. lia.
Qed.

Lemma set_last_length (y : list Q) (v : Q) :
  length (np.set_last y v) = length y.
Proof.
  destruct y as [| a y]; [reflexivity |].
  unfold np.set_last. rewrite length_app, removelast_length. simpl. lia.
Qed.

Lemma set_last_nth_error (y : list Q) (v : Q) (j : nat) :
  (j < length y)%nat ->
  nth_error (np.set_last y v) j =
  if (S j =? length y)%nat then Some v else nth_error y j.
Proof.
  intros Hj. destruct y as [| a y]; [simpl in Hj; lia |].
  unfold np.set_last.
  pose proof (removelast_length (a :: y)) as Hlen.
  destruct (Nat.eqb_spec (S j) (length (a :: y))) as [E | N].
  - rewrite nth_error_app2 by lia.
    replace (j - length (removelast (a :: y)))%nat with 0%nat by lia.
    reflexivity.
  - rewrite nth_error_app1 by lia.
    rewrite (app_removelast_last a (l := a :: y)) at 2 by discriminate.
    now rewrite nth_error_app1 by lia.
Qed.

(** The entries of [linspace] for two values and more: entry [j] is
    [start + j * (stop - start) / (num - 1)], the last one [stop] itself. *)
Lemma linspace_nth_error (start stop : Q) (num j : nat) :
  (2 <= num)%nat -> (j < num)%nat ->
  exists t,
    nth_error (np.linspace start stop num) j = Some t /\
    (S j = num -> t = stop) /\
    (t == start + inject_Z (Z.of_nat j) *
                  ((stop - start) / inject_Z (Z.of_nat num - 1)))%Q.
Proof.
  intros Hnum Hj.
  assert (Hdiv : ~ (inject_Z (Z.of_nat num - 1) == 0)%Q).
  { unfold Qeq. simpl. lia. }
  unfold np.linspace.
  replace (0 <? Z.of_nat num - 1)%Z with true by (symmetry; apply Z.ltb_lt; lia).
  replace (1 <? num)%nat with true by (symmetry; apply Nat.ltb_lt; lia).
  set (div := inject_Z (Z.of_nat num - 1)) in *.
  set (delta := (stop - start)%Q).
  assert (Hshape : exists g : nat -> Q,
    (forall i, (g i == start + inject_Z (Z.of_nat i) * (delta / div))%Q) /\
    map (fun v => (v + start)%Q)
      (if Qeq_bool (delta / div) 0
       then map (fun v => (v / div * delta)%Q)
                (map (fun i => inject_Z (Z.of_nat i)) (seq 0 num))
       else map (fun v => (v * (delta / div))%Q)
                (map (fun i => inject_Z (Z.of_nat i)) (seq 0 num))) =
    map g (seq 0 num)).
  { destruct (Qeq_bool (delta / div) 0).
    - exists (fun i => (inject_Z (Z.of_nat i) / div * delta + start)%Q).
      split; [intros i; field; exact Hdiv | now rewrite !map_map].
    - exists (fun i => (inject_Z (Z.of_nat i) * (delta / div) + start)%Q).
      split; [intros i; field; exact Hdiv | now rewrite !map_map]. }
  destruct Hshape as (g & Hg & ->).
  rewrite set_last_nth_error by (now rewrite length_map, length_seq).
  rewrite length_map, length_seq.
  destruct (Nat.eqb_spec (S j) num) as [E | N].
  - exists stop. split; [reflexivity |]. split; [reflexivity |].
    replace (Z.of_nat j) with (Z.of_nat num - 1)%Z by lia.
    fold div. unfold delta. field. exact Hdiv.
  - exists (g j). split; [| split; [intros; lia | apply Hg]].
    rewrite nth_error_map, nth_error_seq.
    replace (j <? num)%nat with true by (symmetry; apply Nat.ltb_lt; lia).
    reflexivity.
Qed.

Lemma linspace_nth (stop : Q) (num j : nat) :
  (2 <= num)%nat -> (j < num)%nat ->
  let t := nth j (np.linspace 0 stop num) 0%Q in
  nth_error (np.linspace 0 stop num) j = Some t /\
  (S j = num -> t = stop) /\
  (t == inject_Z (Z.of_nat j) * (stop / inject_Z (Z.of_nat num - 1)))%Q.
Proof.
  intros Hnum Hj t.
  destruct (linspace_nth_error 0 stop num j Hnum Hj) as (t' & Hnth & Hlast & Ht).
  assert (E : t = t') by (unfold t; now apply nth_error_nth).
  rewrite E. split; [exact Hnth |]. split; [exact Hlast |].
  rewrite Ht. field. unfold Qeq. simpl. lia.
Qed.

Lemma linspace_length (start stop : Q) (num : nat) :
  length (np.linspace start stop num) = num.
Proof.
  unfold np.linspace.
  assert (H : forall y : list Q,
    length (if (1 <? num)%nat then np.set_last y stop else y) = length y).
  { intros y. destruct (1 <? num)%nat; [apply set_last_length | reflexivity]. }
  rewrite H, length_map.
  destruct (0 <? Z.of_nat num - 1)%Z;
    [destruct (Qeq_bool _ 0) |]; now rewrite !length_map, length_seq.
Qed.

Lemma nth_error_combine {A B : Type} (l : list A) (l' : list B) (j : nat)
    (a : A) (b : B) :
  nth_error l j = Some a -> nth_error l' j = Some b ->
  nth_error (combine l l') j = Some (a, b).
Proof.
  revert l l'. induction j as [| j IH]; intros [| a0 l] [| b0 l']; simpl;
    try discriminate.
  - now intros [= ->] [= ->].
  - apply IH.
Qed.

(** ** The claims *)

(** C2.  For a fitted curve of [n] samples and every [count >= 2], the
    resampling returns [count] points: both splines evaluated at the
    parameters [j * (n - 1) / (count - 1)], [j = 0 .. count-1], which are
    evenly spaced, increasing, and run from 0 to [n - 1]; the first point
    is the first sample and the last point the last sample.  The page
    resamples with [count = 200]. *)
Theorem resample_spans (curve_title : text) (df : DataFrame Q)
    (said : list notice) (f : fit) (count : nat) :
  get_fitted_spline curve_title df = Ok (said, Some f) ->
  (2 <= count)%nat ->
  let n := length (x_data f) in
  let stop := inject_Z (Z.of_nat n - 1) in
  let step := (stop / inject_Z (Z.of_nat count - 1))%Q in
  exists t_fit,
    resample f count =
      combine (combine (map (spline_call (spline_x f)) t_fit)
                       (map (spline_call (spline_y f)) t_fit)) t_fit /\
    length (resample f count) = count /\ length t_fit = count /\
    (forall j, (j < count)%nat ->
       (nth j t_fit 0 == inject_Z (Z.of_nat j) * step)%Q /\
       nth_error (resample f count) j =
         Some (spline_call (spline_x f) (nth j t_fit 0),
               spline_call (spline_y f) (nth j t_fit 0), nth j t_fit 0)) /\
    (forall i j, (i < j < count)%nat -> (nth i t_fit 0 < nth j t_fit 0)%Q) /\
    (nth 0 t_fit 0 == 0)%Q /\ (nth (count - 1) t_fit 0 == stop)%Q /\
    (spline_call (spline_x f) (nth 0 t_fit 0) == nth 0 (x_data f) 0)%Q /\
    (spline_call (spline_y f) (nth 0 t_fit 0) == nth 0 (y_data f) 0)%Q /\
    (spline_call (spline_x f) (nth (count - 1) t_fit 0) ==
     nth (n - 1) (x_data f) 0)%Q /\
    (spline_call (spline_y f) (nth (count - 1) t_fit 0) ==
     nth (n - 1) (y_data f) 0)%Q /\
    (forall x_conv_factor y_conv_factor,
       length (snd (plot_data f x_conv_factor y_conv_factor)) = 200%nat).
Proof.
  intros Hfit Hcount n stop step.
  apply get_fitted_spline_Some in Hfit. destruct Hfit as (Hrows & _ & Hf).
  set (rows := curve_rows curve_title df) in *.
  assert (Hn : n = length rows).
  { unfold n. rewrite Hf. apply fit_of_lengths. }
  assert (Hx : forall i t, (i < n)%nat -> (t == inject_Z (Z.of_nat i))%Q ->
                 (spline_call (spline_x f) t == nth i (x_data f) 0)%Q).
  { intros i t Hi Ht. rewrite Hf. unfold fit_of.
    cbn [x_data spline_x]. eapply spline_interpolates with (i := i).
    - apply UnivariateSpline_accepts; [now rewrite length_map | exact Hrows].
    - reflexivity.
    - rewrite knots_length. lia.
    - rewrite knots_nth by lia. exact Ht. }
  assert (Hy : forall i t, (i < n)%nat -> (t == inject_Z (Z.of_nat i))%Q ->
                 (spline_call (spline_y f) t == nth i (y_data f) 0)%Q).
  { intros i t Hi Ht. rewrite Hf. unfold fit_of.
    cbn [y_data spline_y]. eapply spline_interpolates with (i := i).
    - apply UnivariateSpline_accepts; [now rewrite length_map | exact Hrows].
    - reflexivity.
    - rewrite knots_length. lia.
    - rewrite knots_nth by lia. exact Ht. }
  assert (Hstep : (0 < step)%Q).
  { unfold step, stop. apply Qlt_shift_div_l.
    - unfold Qlt. simpl. lia.
    - unfold Qlt. simpl. lia. }
  exists (np.linspace 0 stop count).
  set (t_fit := np.linspace 0 stop count).
  assert (Hlen : length t_fit = count) by apply linspace_length.
  assert (Hres : resample f count =
    combine (combine (map (spline_call (spline_x f)) t_fit)
                     (map (spline_call (spline_y f)) t_fit)) t_fit)
    by reflexivity.
  assert (Hpar : forall j, (j < count)%nat ->
            (nth j t_fit 0 == inject_Z (Z.of_nat j) * step)%Q).
  { intros j Hj. apply (linspace_nth stop count j Hcount Hj). }
  split; [exact Hres |]. rewrite Hres.
  split. { rewrite !length_combine, !length_map. lia. }
  split; [exact Hlen |].
  split.
  { intros j Hj. split; [now apply Hpar |].
    destruct (linspace_nth stop count j Hcount Hj) as (Hnth & _ & _).
    fold t_fit in Hnth.
    apply nth_error_combine; [apply nth_error_combine |];
      rewrite ?nth_error_map, ?Hnth; reflexivity. }
  split.
  { intros i j Hij. rewrite !Hpar by lia.
    apply Qmult_lt_compat_r; [exact Hstep |].
    rewrite <- Zlt_Qlt. lia. }
  assert (H0 : (nth 0 t_fit 0 == 0)%Q).
  { rewrite Hpar by lia. simpl. apply Qmult_0_l. }
  assert (Hlast : nth (count - 1) t_fit 0%Q = stop).
  { apply (linspace_nth stop count (count - 1) Hcount); lia. }
  split; [exact H0 |]. split; [now rewrite Hlast |].
  split. { apply Hx; [lia | exact H0]. }
  split. { apply Hy; [lia | exact H0]. }
  assert (Hstop : (stop == inject_Z (Z.of_nat (n - 1)))%Q).
  { unfold stop. replace (Z.of_nat n - 1)%Z with (Z.of_nat (n - 1)) by lia.
    reflexivity. }
  split. { rewrite Hlast. apply Hx; [lia | exact Hstop]. }
  split. { rewrite Hlast. apply Hy; [lia | exact Hstop]. }
  intros fx fy. unfold plot_data. cbn [snd].
  rewrite length_map.
  unfold resample. rewrite !length_combine, !length_map, linspace_length. lia.
Qed.

(** C3.  For every category of the table and every two units registered in
    it, the conversion factor from the first to the second is the quotient
    of their table values.  In the length category the factor from inches
    to centimeters is 2.54, and the inch values [1.0, 2.0] become
    [2.54, 5.08].  (The table's keys are the full unit names, such as
    "inches (in)".) *)
Theorem conv_factor_quotient (category from_unit to_unit : string)
    (units : dict Q) (vf vt : Q) :
  dict_get CONVERSION_FACTORS category = Some units ->
  dict_get units from_unit = Some vf ->
  dict_get units to_unit = Some vt ->
  conv_factor category from_unit to_unit = Ok (vf / vt)%Q /\
  factor_of category from_unit (Some to_unit) = Ok (vf / vt)%Q /\
  dict_get CONVERSION_FACTORS "length" =
    Some [ ("centimeters (cm)", 1.0%Q); ("meters (m)", 100.0%Q);
           ("inches (in)", 2.54%Q); ("feet (ft)", 30.48%Q) ] /\
  exists factor,
    conv_factor "length" "inches (in)" "centimeters (cm)" = Ok factor /\
    (factor == 2.54)%Q /\
    Forall2 Qeq (scale [1.0%Q; 2.0%Q] factor) [2.54%Q; 5.08%Q].
Proof.
  intros Hc Hf Ht.
  assert (H : conv_factor category from_unit to_unit = Ok (vf / vt)%Q).
  { unfold conv_factor, conv_factor_in.
    rewrite (category_known _ _ Hc). cbn [negb].
    rewrite (dict_item_get _ _ _ Hc). cbn [bind].
    rewrite (dict_item_get _ _ _ Hf), (dict_item_get _ _ _ Ht). cbn [bind].
    unfold py_div.
    pose proof (factors_positive _ _ _ _ Hc Ht) as Hpos.
    destruct (Qeq_bool vt 0) eqn:Z; [| reflexivity].
    apply Qeq_bool_eq in Z. rewrite Z in Hpos. discriminate Hpos. }
  repeat split; try assumption.
  exists (2.54 / 1.0)%Q. repeat split.
  repeat constructor; reflexivity.
Qed.

(** C4.  For every curve of [n >= 2] points the fit is made, and the degree
    of both splines is [min(3, n - 1)]: 1 for two points, 2 for three, 3
    for four and more; it never exceeds [n - 1]. *)
Theorem spline_degree (curve_title : text) (df : DataFrame Q) :
  let n := Z.of_nat (length (curve_rows curve_title df)) in
  (2 <= n)%Z ->
  exists f k,
    get_fitted_spline curve_title df = Ok ([], Some f) /\
    scipy.sp_k (spline_x f) = k /\ scipy.sp_k (spline_y f) = k /\
    k = Z.min 3 (n - 1) /\
    (n = 2 -> k = 1)%Z /\ (n = 3 -> k = 2)%Z /\ (4 <= n -> k = 3)%Z /\
    (k <= n - 1)%Z.
Proof.
  intros n Hn.
  exists (fit_of (curve_rows curve_title df)), (Z.min 3 (n - 1)).
  split; [apply get_fitted_spline_fits; lia |].
  repeat split; try reflexivity; lia.
Qed.

(** C5.  For a curve of fewer than two points the fit returns its tuple of
    [None] with a warning and raises nothing; a run whose sidebar selects
    such a curve ends with a page that carries the warning and no chart;
    and every curve of the table with two points or more is fitted all the
    same. *)
Theorem too_few_points_skipped (curve_title : text) (df : DataFrame Q) :
  (length (curve_rows curve_title df) < 2)%nat ->
  get_fitted_spline curve_title df = Ok ([too_few_points curve_title], None) /\
  (forall other,
      (2 <= length (curve_rows other df))%nat ->
      exists f, get_fitted_spline other df = Ok ([], Some f)) /\
  forall csv ui loaded filtered_df found titles,
    load_data csv = (loaded, df) ->
    filters ui df = Ok filtered_df ->
    choose_title ui filtered_df = Ok (found, titles, Some curve_title) ->
    exists said,
      main csv ui = Ok (mkPage said titles (Some curve_title) None None) /\
      (truthy curve_title = true ->
       said = loaded ++ found ++ [too_few_points curve_title]).
Proof.
  intros Hn. split; [now apply get_fitted_spline_few |].
  split.
  { intros other Hother. eexists. now apply get_fitted_spline_fits. }
  intros csv ui loaded filtered_df found titles Hload Hfilters Hchoose.
  unfold main. rewrite Hload.
  destruct df as [| r df'].
  { apply filters_in_order in Hfilters. inversion Hfilters; subst.
    discriminate Hchoose. }
  rewrite Hfilters. cbn [bind]. rewrite Hchoose. cbn [bind].
  destruct (truthy curve_title).
  - rewrite get_fitted_spline_few by exact Hn. cbn [bind].
    eexists. split; [reflexivity |]. reflexivity.
  - eexists. split; [reflexivity |]. discriminate.
Qed.

(** C6.  A row of the file whose [X_Value] or [Y_Value] is missing or not a
    number is dropped by [load_data] before anything looks at titles: the
    loaded table, hence every curve's rows and point count, is the same as
    if the row were not in the file.  No value is made up: every loaded row
    is a row of the file read with both of its numbers.  A title all of
    whose rows are dropped has no row in the loaded table and is not among
    the curve titles of any page. *)
Theorem bad_rows_dropped (before after : DataFrame cell) (r : Row cell) :
  not_a_number (X_Value r) \/ not_a_number (Y_Value r) ->
  load_data (Some (before ++ r :: after)) = load_data (Some (before ++ after)) /\
  (forall curve_title,
      curve_rows curve_title (snd (load_data (Some (before ++ r :: after)))) =
      curve_rows curve_title (snd (load_data (Some (before ++ after))))) /\
  (forall raw r',
      In r' (snd (load_data (Some raw))) ->
      exists r0, In r0 raw /\ reading r0 = Some r' /\
                 ~ not_a_number (X_Value r0) /\ ~ not_a_number (Y_Value r0)) /\
  (forall raw t,
      (forall r0, In r0 raw -> replace_nan_text (title r0) = Some t ->
                  not_a_number (X_Value r0) \/ not_a_number (Y_Value r0)) ->
      curve_rows (Some t) (snd (load_data (Some raw))) = [] /\
      ~ In (Some t) (map title (snd (load_data (Some raw)))) /\
      forall ui pg, main (Some raw) ui = Ok pg ->
                    ~ In (Some t) (curve_titles pg) /\
                    selected_title pg <> Some (Some t)).
Proof.
  intros Hbad. pose proof (reading_None r Hbad) as Hr.
  assert (Hload : load_data (Some (before ++ r :: after)) =
                  load_data (Some (before ++ after))).
  { rewrite !load_data_reading, !map_app, !dropna_app. cbn [map pd.dropna].
    now rewrite Hr. }
  split; [exact Hload |]. split; [intros t; now rewrite Hload |]. split.
  - intros raw r' Hin. rewrite load_data_reading in Hin. cbn [snd] in Hin.
    apply In_dropna, in_map_iff in Hin. destruct Hin as (r0 & Hread & Hin).
    exists r0. destruct (reading_Some _ _ Hread) as (Hx & Hy & _).
    repeat split; assumption.
  - intros raw t Hall.
    assert (Hnone : ~ In (Some t) (map title (snd (load_data (Some raw))))).
    { rewrite load_data_reading. cbn [snd]. intros Hin.
      apply in_map_iff in Hin. destruct Hin as (r' & Ht & Hin).
      apply In_dropna, in_map_iff in Hin. destruct Hin as (r0 & Hread & Hin).
      destruct (reading_Some _ _ Hread) as (Hx & Hy & _ & _ & Htitle).
      rewrite Ht in Htitle. symmetry in Htitle.
      destruct (Hall r0 Hin Htitle); contradiction. }
    split; [now apply curve_rows_nil |]. split; [exact Hnone |].
    intros ui pg Hmain. destruct (main_titles _ _ _ Hmain) as [Htitles Hsel].
    assert (Hnot : ~ In (Some t) (curve_titles pg)).
    { intros Hin. apply Hnone, Htitles, Hin. }
    split; [exact Hnot |]. intros Hs. apply Hnot, Hsel, Hs.
Qed.

(** C7.  The rows a curve is fitted from are the rows of the file that
    carry its title and two numbers, in the order of the file: loading
    and selecting by title only leave rows out (and so do the sidebar
    filters), nothing is sorted.  The sample arrays are the values of these
    rows in that order, and the parameter of the fit is [0, 1, ..., n-1],
    sample [i] sitting at parameter [i]. *)
Theorem order_preserved (raw : DataFrame cell) (curve_title : text)
    (said : list notice) (f : fit) :
  let df := snd (load_data (Some raw)) in
  let rows := curve_rows curve_title df in
  let n := length rows in
  get_fitted_spline curve_title df = Ok (said, Some f) ->
  in_order (map Some df) (map reading raw) /\
  in_order rows df /\
  (forall ui filtered_df,
      filters ui df = Ok filtered_df -> in_order filtered_df df) /\
  combine (x_data f) (y_data f) = samples rows /\
  length (x_data f) = n /\ length (y_data f) = n /\
  scipy.sp_y (spline_x f) = x_data f /\
  scipy.sp_y (spline_y f) = y_data f /\
  scipy.sp_x (spline_x f) = map inject_Z (np.arange (Z.of_nat n)) /\
  scipy.sp_x (spline_y f) = map inject_Z (np.arange (Z.of_nat n)) /\
  np.arange (Z.of_nat n) = map Z.of_nat (seq 0 n) /\
  (forall i, (i < n)%nat ->
      nth i (scipy.sp_x (spline_x f)) 0%Q = inject_Z (Z.of_nat i) /\
      nth i (scipy.sp_x (spline_y f)) 0%Q = inject_Z (Z.of_nat i) /\
      nth_error (x_data f) i = option_map X_Value (nth_error rows i) /\
      nth_error (y_data f) i = option_map Y_Value (nth_error rows i)).
Proof.
  intros df rows n Hfit.
  apply get_fitted_spline_Some in Hfit. destruct Hfit as (_ & _ & ->).
  fold rows. unfold fit_of. fold n.
  cbn [x_data y_data spline_x spline_y scipy.sp_x scipy.sp_y].
  split. { unfold df. rewrite load_data_reading. apply in_order_dropna. }
  split. { apply in_order_filter. }
  split. { intros ui filtered_df. apply filters_in_order. }
  split. { unfold samples. clear. induction rows; simpl; congruence. }
  rewrite !length_map. fold n.
  repeat split; try reflexivity.
  - unfold np.arange. now rewrite Nat2Z.id.
  - now apply knots_nth.
  - now apply knots_nth.
  - apply nth_error_map.
  - apply nth_error_map.
Qed.

(** C8.  A variable name that is absent from the binding table gets the
    category "unknown", itself as base unit and itself as the only unit.
    Nothing raises, the conversion table is not consulted (the factor is
    1.0 whatever the table holds), and on the page the factor of an axis
    with such a variable is 1.0, so the displayed values are the raw ones. *)
Theorem unknown_variable_unconverted (var_name : string) :
  dict_mem VARIABLE_TO_CATEGORY var_name = false ->
  get_unit_info var_name = Ok ("unknown", var_name, [var_name]) /\
  (forall unknown pick,
      select_unit unknown var_name ("unknown", var_name, [var_name]) pick =
      Ok ([unknown var_name], Some var_name)) /\
  (forall table,
      conv_factor_in table "unknown" var_name var_name = Ok 1.0%Q) /\
  (forall csv ui pg f c,
      main csv ui = Ok pg -> fitted pg = Some f -> drawn pg = Some c ->
      (x_var f = Some var_name ->
       x_unit_selected c = Some var_name /\ x_conv_factor c = 1.0%Q /\
       Forall2 Qeq (map (fun p => fst (fst p)) (plot_df_scatter c))
                   (x_data f)) /\
      (y_var f = Some var_name ->
       y_unit_selected c = Some var_name /\ y_conv_factor c = 1.0%Q /\
       Forall2 Qeq (map (fun p => snd (fst p)) (plot_df_scatter c))
                   (y_data f))).
Proof.
  intros Habsent.
  assert (Hinfo : get_unit_info var_name = Ok ("unknown", var_name, [var_name])).
  { unfold get_unit_info. now rewrite Habsent. }
  split; [exact Hinfo |]. split; [reflexivity |]. split; [reflexivity |].
  intros csv ui pg f c Hmain Hfit Hdrawn.
  destruct (main_drawn _ _ _ _ Hmain Hdrawn)
    as (f' & xv & yv & x_info & y_info & x_said & y_said & Hf' & Hxv & Hyv &
        Hxi & Hyi & Hxs & Hys & Hxf & Hyf & Hplot).
  rewrite Hfit in Hf'. injection Hf' as <-.
  pose proof (main_fitted _ _ _ Hmain) as Hfor. rewrite Hfit in Hfor.
  symmetry in Hfor. apply fit_for_Some in Hfor.
  destruct Hfor as (curve_title & _ & _ & _ & Hshape).
  pose proof (fit_of_lengths (curve_rows curve_title (snd (load_data csv))))
    as [Lx Ly].
  rewrite <- Hshape in Lx, Ly.
  unfold plot_data in Hplot. injection Hplot as Hscatter _.
  split; intros Hvar.
  - rewrite Hvar in Hxv. injection Hxv as <-.
    rewrite Hinfo in Hxi. injection Hxi as <-.
    cbn in Hxs. injection Hxs as _ Hsel. rewrite <- Hsel in Hxf.
    cbn in Hxf. injection Hxf as Hone.
    split; [now symmetry |]. split; [now symmetry |].
    rewrite <- Hscatter, <- map_map with (f := fst) (g := fst).
    rewrite !map_fst_combine, <- Hone.
    + apply scale_one.
    + unfold scale. rewrite !length_map. congruence.
    + rewrite length_combine, arange_length. unfold scale.
      rewrite !length_map. lia.
  - rewrite Hvar in Hyv. injection Hyv as <-.
    rewrite Hinfo in Hyi. injection Hyi as <-.
    cbn in Hys. injection Hys as _ Hsel. rewrite <- Hsel in Hyf.
    cbn in Hyf. injection Hyf as Hone.
    split; [now symmetry |]. split; [now symmetry |].
    rewrite <- Hscatter, <- map_map with (f := fst) (g := snd).
    rewrite map_fst_combine, map_snd_combine, <- Hone.
    + apply scale_one.
    + unfold scale. rewrite !length_map. congruence.
    + rewrite length_combine, arange_length. unfold scale.
      rewrite !length_map. lia.
Qed.

(** C9, as stated, fails: "Diameter in" is bound to the length category
    and [get_unit_info] returns "inches (in)" for it, whose factor is 2.54
    and which is listed third; the unit of factor 1.0 is
    "centimeters (cm)". *)
Lemma base_unit_counterexample :
  dict_mem VARIABLE_TO_CATEGORY "Diameter in" = true /\
  get_unit_info "Diameter in" =
    Ok ("length", "inches (in)",
        ["centimeters (cm)"; "meters (m)"; "inches (in)"; "feet (ft)"]) /\
  (units <- dict_item CONVERSION_FACTORS "length" ;;
   dict_item units "inches (in)") = Ok 2.54%Q /\
  ~ (2.54 == 1.0)%Q /\
  ~ returns_category_base_unit "Diameter in" /\
  ~ (forall var_name,
        dict_mem VARIABLE_TO_CATEGORY var_name = true ->
        returns_category_base_unit var_name).
Proof.
  assert (Hno : ~ returns_category_base_unit "Diameter in").
  { intros (category & base_unit & table & v & Hinfo & Htable & Hv & Hone & _).
    cbn in Hinfo. injection Hinfo as <- <- _.
    cbn in Htable. injection Htable as <-.
    cbn in Hv. injection Hv as <-. discriminate Hone. }
  repeat split; try reflexivity; try assumption.
  - discriminate.
  - intros Hall. apply Hno, Hall. reflexivity.
Qed.

(** C9, amended.  For every variable name of the binding table,
    [get_unit_info] returns the category and the unit the table binds the
    name to (the unit the data is recorded in, which is registered in the
    category), with all unit names of the category in table order; in each
    such category the first listed unit is the only one of factor 1.0. *)
Theorem get_unit_info_bound (var_name category native_unit : string) :
  dict_get VARIABLE_TO_CATEGORY var_name = Some (category, native_unit) ->
  exists table base rest,
    dict_get CONVERSION_FACTORS category = Some table /\
    get_unit_info var_name = Ok (category, native_unit, dict_keys table) /\
    In native_unit (dict_keys table) /\
    table = (base, 1.0%Q) :: rest /\
    Forall (fun entry => ~ (snd entry == 1.0)%Q) rest.
Proof.
  intros Hbound.
  assert (Hinfo :
    get_unit_info var_name =
    (units <- dict_item CONVERSION_FACTORS category ;;
     Ok (category, native_unit, dict_keys units))).
  { unfold get_unit_info, dict_mem, dict_item. now rewrite Hbound. }
  rewrite Hinfo. clear Hinfo.
  apply dict_get_In in Hbound. simpl in Hbound.
  repeat (destruct Hbound as [Hbound | Hbound];
          [ injection Hbound as <- <- <-;
            eexists; eexists; eexists;
            split; [reflexivity |]; split; [reflexivity |];
            split; [cbn; tauto |]; split; [reflexivity |];
            repeat constructor; discriminate |]).
  contradiction.
Qed.

(** C10.  The fit shown on a page is [get_fitted_spline] of the selected
    title over the whole loaded table: it is a function of the title and
    the table alone, so two runs over one dataset that select one title
    carry the same splines, samples and variable names, whatever their
    sidebar filters; and the fit reads only the rows of that title. *)
Theorem fit_independent_of_filters (csv : option (DataFrame cell))
    (ui1 ui2 : sidebar) (pg1 pg2 : page) :
  main csv ui1 = Ok pg1 ->
  main csv ui2 = Ok pg2 ->
  selected_title pg1 = selected_title pg2 ->
  fitted pg1 = fitted pg2 /\
  fitted pg1 = fit_for (snd (load_data csv)) (selected_title pg1) /\
  (forall curve_title df df',
      curve_rows curve_title df = curve_rows curve_title df' ->
      get_fitted_spline curve_title df = get_fitted_spline curve_title df').
Proof.
  intros H1 H2 Hsame.
  rewrite (main_fitted _ _ _ H1), (main_fitted _ _ _ H2), Hsame.
  repeat split.
  intros curve_title df df' Hrows.
  unfold get_fitted_spline. now rewrite Hrows.
Qed.

(** ** Further properties of the code *)

(** *** Units *)

Lemma conv_factor_value (category from_unit to_unit : string)
    (units : dict Q) (vf vt : Q) :
  dict_get CONVERSION_FACTORS category = Some units ->
  dict_get units from_unit = Some vf ->
  dict_get units to_unit = Some vt ->
  conv_factor category from_unit to_unit = Ok (vf / vt)%Q.
Proof.
  intros Hc Hf Ht. unfold conv_factor, conv_factor_in.
  rewrite (category_known _ _ Hc). cbn [negb].
  rewrite (dict_item_get _ _ _ Hc). cbn [bind].
  rewrite (dict_item_get _ _ _ Hf), (dict_item_get _ _ _ Ht). cbn [bind].
  unfold py_div.
  pose proof (factors_positive _ _ _ _ Hc Ht) as Hpos.
  destruct (Qeq_bool vt 0) eqn:Z; [| reflexivity].
  apply Qeq_bool_eq in Z. rewrite Z in Hpos. discriminate Hpos.
Qed.

Lemma positive_nonzero (v : Q) : (0 < v)%Q -> ~ (v == 0)%Q.
Proof. intros H E. rewrite E in H. discriminate H. Qed.

(** X1.  Within one category the conversion factors behave as ratios: the
    factor from a unit to itself is 1, the factor back undoes the factor
    forth, factors compose along a chain of units, and every factor is
    positive. *)
Theorem conv_factor_ratios (category a b c : string) (units : dict Q)
    (va vb vc : Q) :
  dict_get CONVERSION_FACTORS category = Some units ->
  dict_get units a = Some va ->
  dict_get units b = Some vb ->
  dict_get units c = Some vc ->
  exists aa ab ba bc ac,
    conv_factor category a a = Ok aa /\
    conv_factor category a b = Ok ab /\
    conv_factor category b a = Ok ba /\
    conv_factor category b c = Ok bc /\
    conv_factor category a c = Ok ac /\
    (aa == 1)%Q /\ (ab * ba == 1)%Q /\ (ab * bc == ac)%Q /\ (0 < ab)%Q.
Proof.
  intros Hc Ha Hb Hcu.
  pose proof (positive_nonzero _ (factors_positive _ _ _ _ Hc Ha)) as Na.
  pose proof (positive_nonzero _ (factors_positive _ _ _ _ Hc Hb)) as Nb.
  pose proof (positive_nonzero _ (factors_positive _ _ _ _ Hc Hcu)) as Nc.
  exists (va / va)%Q, (va / vb)%Q, (vb / va)%Q, (vb / vc)%Q, (va / vc)%Q.
  repeat split; try (now apply conv_factor_value with (units := units)).
  - field. exact Na.
  - field. split; assumption.
  - field. split; assumption.
  - apply Qlt_shift_div_l.
    + now apply (factors_positive category b units).
    + rewrite Qmult_0_l. now apply (factors_positive category a units).
Qed.

(** X2.  For a category other than "unknown", the conversion factor raises
    [KeyError] as soon as the category is not in the table or one of the
    two units is not registered in it; with the table of the script it
    never raises [ZeroDivisionError]. *)
Theorem conv_factor_missing_key (category from_unit to_unit : string) :
  category <> "unknown" ->
  (dict_get CONVERSION_FACTORS category = None \/
   exists units,
     dict_get CONVERSION_FACTORS category = Some units /\
     (dict_get units from_unit = None \/ dict_get units to_unit = None)) ->
  conv_factor category from_unit to_unit = Raise KeyError /\
  forall category' from_unit' to_unit',
    conv_factor category' from_unit' to_unit' <> Raise ZeroDivisionError.
Proof.
  intros Hknown Hmissing. split.
  - unfold conv_factor, conv_factor_in.
    replace (category =? "unknown") with false
      by (symmetry; now apply String.eqb_neq).
    cbn [negb]. unfold dict_item.
    destruct Hmissing as [-> | (units & -> & [Hf | Ht])]; [reflexivity | |].
    + cbn [bind]. now rewrite Hf.
    + cbn [bind]. destruct (dict_get units from_unit); [| reflexivity].
      cbn [bind]. now rewrite Ht.
  - intros cat u v. unfold conv_factor, conv_factor_in.
    destruct (negb (cat =? "unknown")); [| discriminate].
    unfold dict_item.
    destruct (dict_get CONVERSION_FACTORS cat) as [units |] eqn:Hc;
      [| discriminate].
    cbn [bind].
    destruct (dict_get units u) as [vu |]; [| discriminate].
    cbn [bind].
    destruct (dict_get units v) as [vv |] eqn:Hv; [| discriminate].
    cbn [bind]. unfold py_div.
    pose proof (positive_nonzero _ (factors_positive _ _ _ _ Hc Hv)) as N.
    destruct (Qeq_bool vv 0) eqn:Z; [| discriminate].
    apply Qeq_bool_eq in Z. contradiction.
Qed.

Lemma list_index_nth (l : list string) (x : string) :
  In x l -> exists i, list_index l x = Ok i /\ nth_error l i = Some x.
Proof.
  induction l as [| y l IH]; simpl; [easy |].
  intros Hin. destruct (String.eqb_spec y x) as [-> | Hne].
  - exists 0%nat. split; reflexivity.
  - destruct Hin as [-> | Hin]; [contradiction |].
    destruct (IH Hin) as (i & Hi & Hnth). exists (S i).
    rewrite Hi. split; [reflexivity | exact Hnth].
Qed.

Lemma list_index_missing (l : list string) (x : string) :
  ~ In x l -> list_index l x = Raise ValueError.
Proof.
  induction l as [| y l IH]; simpl; [reflexivity |].
  intros Hnot. destruct (String.eqb_spec y x) as [-> | Hne]; [tauto |].
  rewrite IH by tauto. reflexivity.
Qed.

Lemma dict_keys_get {V : Type} (d : dict V) (k : string) :
  In k (dict_keys d) -> exists v, dict_get d k = Some v.
Proof.
  induction d as [| [k' v'] d IH]; simpl; [easy |].
  destruct (String.eqb_spec k' k) as [-> | Hne]; [eexists; reflexivity |].
  intros [H | H]; [contradiction | now apply IH].
Qed.

Lemma dict_get_keys {V : Type} (d : dict V) (k : string) (v : V) :
  dict_get d k = Some v -> In k (dict_keys d).
Proof.
  intros H. apply dict_get_In in H. unfold dict_keys.
  apply in_map_iff. now exists (k, v).
Qed.

(** What [get_unit_info] can return. *)
Lemma get_unit_info_cases (var_name category base_unit : string)
    (options : list string) :
  get_unit_info var_name = Ok (category, base_unit, options) ->
  (dict_get VARIABLE_TO_CATEGORY var_name = None /\
   category = "unknown" /\ base_unit = var_name /\ options = [var_name]) \/
  (exists units vb,
     dict_get VARIABLE_TO_CATEGORY var_name = Some (category, base_unit) /\
     dict_get CONVERSION_FACTORS category = Some units /\
     dict_get units base_unit = Some vb /\
     options = dict_keys units).
Proof.
  unfold get_unit_info, dict_mem, dict_item.
  destruct (dict_get VARIABLE_TO_CATEGORY var_name) as [[cat unit] |] eqn:B.
  - cbn [bind].
    destruct (binding_registered _ _ _ B) as (units & vb & Hc & Hu).
    rewrite Hc. cbn [bind]. intros [= <- <- <-].
    right. exists units, vb. repeat split; assumption.
  - intros [= <- <- <-]. left. repeat split.
Qed.

(** X3.  The unit box and the factor of an axis never raise for a pick
    within the offered units: whatever the variable name, the box yields
    one of the offered units (the picked one, or the unit bound to the
    variable while the box is untouched), and the factor for it is a
    positive number, equal to 1 for the untouched box. *)
Theorem axis_units_never_raise (unknown : string -> notice)
    (var_name category base_unit : string) (options : list string)
    (pick : option nat) :
  get_unit_info var_name = Ok (category, base_unit, options) ->
  (forall i, pick = Some i -> (i < length options)%nat) ->
  exists said unit_selected factor,
    select_unit unknown var_name (category, base_unit, options) pick =
      Ok (said, Some unit_selected) /\
    In unit_selected options /\
    (pick = None -> unit_selected = base_unit) /\
    (category <> "unknown" ->
     forall i, pick = Some i -> nth_error options i = Some unit_selected) /\
    factor_of category base_unit (Some unit_selected) = Ok factor /\
    (0 < factor)%Q /\
    (pick = None -> (factor == 1)%Q).
Proof.
  intros Hinfo Hpick.
  destruct (get_unit_info_cases _ _ _ _ Hinfo)
    as [(_ & -> & -> & ->) | (units & vb & Hbound & Hc & Hb & ->)].
  - exists [unknown var_name], var_name, 1.0%Q. cbn.
    repeat split; auto. congruence.
  - pose proof (category_known _ _ Hc) as Hknown.
    unfold select_unit. rewrite Hknown.
    destruct (list_index_nth _ _ (dict_get_keys _ _ _ Hb)) as (idx & Hidx & Hnth).
    rewrite Hidx. cbn [bind]. unfold st.selectbox.
    destruct (dict_keys units) as [| u0 us] eqn:Hkeys;
      [destruct idx; discriminate Hnth |].
    rewrite <- Hkeys in *.
    set (i := match pick with Some i => i | None => idx end).
    assert (Hsel : exists u, nth_error (dict_keys units) i = Some u).
    { destruct (nth_error (dict_keys units) i) as [u |] eqn:N;
        [now exists u |].
      apply nth_error_None in N. unfold i in N.
      destruct pick as [j |].
      - specialize (Hpick j eq_refl). lia.
      - assert (idx < length (dict_keys units))%nat
          by (apply nth_error_Some; congruence).
        lia. }
    destruct Hsel as (u & Hu). rewrite Hu. cbn [bind].
    pose proof (nth_error_In _ _ Hu) as Hin.
    destruct (dict_keys_get _ _ Hin) as (vu & Hvu).
    exists [], u, (vb / vu)%Q.
    split; [reflexivity |]. split; [exact Hin |].
    assert (Hdefault : pick = None -> u = base_unit).
    { intros ->. unfold i in Hu. congruence. }
    split; [exact Hdefault |].
    split. { intros _ j ->. exact Hu. }
    split. { cbn [factor_of]. now apply conv_factor_value with (units := units). }
    pose proof (factors_positive _ _ _ _ Hc Hb) as Pb.
    pose proof (factors_positive _ _ _ _ Hc Hvu) as Pu.
    split.
    + apply Qlt_shift_div_l; [exact Pu | now rewrite Qmult_0_l].
    + intros Hnone. rewrite (Hdefault Hnone) in Hvu.
      assert (vu = vb) by congruence. subst vu.
      field. now apply positive_nonzero.
Qed.

Lemma untouched_unit (unknown : string -> notice)
    (var_name category base_unit : string) (options : list string)
    (said : list notice) (unit_selected : option string) (factor : Q) :
  get_unit_info var_name = Ok (category, base_unit, options) ->
  select_unit unknown var_name (category, base_unit, options) None =
    Ok (said, unit_selected) ->
  factor_of category base_unit unit_selected = Ok factor ->
  unit_selected = Some base_unit /\ (factor == 1)%Q.
Proof.
  intros Hinfo Hsel Hfactor.
  destruct (get_unit_info_cases _ _ _ _ Hinfo)
    as [(_ & -> & -> & ->) | (units & vb & Hbound & Hc & Hb & ->)].
  - cbn in Hsel. injection Hsel as _ <-. cbn in Hfactor.
    injection Hfactor as <-. split; reflexivity.
  - unfold select_unit in Hsel. rewrite (category_known _ _ Hc) in Hsel.
    destruct (list_index_nth _ _ (dict_get_keys _ _ _ Hb)) as (idx & Hidx & Hnth).
    rewrite Hidx in Hsel. cbn [bind] in Hsel. unfold st.selectbox in Hsel.
    destruct (dict_keys units) as [| u0 us] eqn:Hkeys;
      [destruct idx; discriminate Hnth |].
    rewrite Hnth in Hsel. cbn [bind] in Hsel. injection Hsel as _ <-.
    split; [reflexivity |].
    cbn [factor_of] in Hfactor.
    rewrite (conv_factor_value _ _ _ _ _ _ Hc Hb Hb) in Hfactor.
    injection Hfactor as <-. field.
    apply positive_nonzero, (factors_positive _ _ _ _ Hc Hb).
Qed.

Lemma scale_unit (values : list Q) (factor : Q) :
  (factor == 1)%Q -> Forall2 Qeq (scale values factor) values.
Proof.
  intros H. induction values as [| v values IH]; simpl; constructor;
    [| exact IH].
  rewrite H. apply Qmult_1_r.
Qed.

(** The scatter frame of a page: the scaled samples, numbered from 0. *)
Lemma main_scatter (csv : option (DataFrame cell)) (ui : sidebar) (pg : page)
    (f : fit) (c : chart) :
  main csv ui = Ok pg -> fitted pg = Some f -> drawn pg = Some c ->
  length (x_data f) = length (y_data f) /\
  map (fun p => fst (fst p)) (plot_df_scatter c) =
    scale (x_data f) (x_conv_factor c) /\
  map (fun p => snd (fst p)) (plot_df_scatter c) =
    scale (y_data f) (y_conv_factor c) /\
  map snd (plot_df_scatter c) =
    map Z.of_nat (seq 0 (length (x_data f))).
Proof.
  intros Hmain Hfit Hdrawn.
  destruct (main_drawn _ _ _ _ Hmain Hdrawn)
    as (f' & xv & yv & x_info & y_info & x_said & y_said & Hf' & _ & _ &
        _ & _ & _ & _ & _ & _ & Hplot).
  rewrite Hfit in Hf'. injection Hf' as <-.
  pose proof (main_fitted _ _ _ Hmain) as Hfor. rewrite Hfit in Hfor.
  symmetry in Hfor. apply fit_for_Some in Hfor.
  destruct Hfor as (curve_title & _ & _ & _ & Hshape).
  pose proof (fit_of_lengths (curve_rows curve_title (snd (load_data csv))))
    as [Lx Ly].
  rewrite <- Hshape in Lx, Ly.
  unfold plot_data in Hplot. injection Hplot as Hscatter _.
  assert (Ls : length (scale (x_data f) (x_conv_factor c)) =
               length (scale (y_data f) (y_conv_factor c)))
    by (unfold scale; rewrite !length_map; congruence).
  assert (La : length (combine (scale (x_data f) (x_conv_factor c))
                               (scale (y_data f) (y_conv_factor c))) =
               length (np.arange
                         (Z.of_nat (length (scale (x_data f) (x_conv_factor c))))))
    by (rewrite length_combine, arange_length; lia).
  split; [congruence |]. rewrite <- Hscatter.
  split; [| split].
  - rewrite <- map_map with (f := fst) (g := fst).
    now rewrite !map_fst_combine.
  - rewrite <- map_map with (f := fst) (g := snd).
    now rewrite map_fst_combine, map_snd_combine.
  - rewrite map_snd_combine by exact La.
    unfold np.arange, scale. now rewrite Nat2Z.id, length_map.
Qed.

(** X4.  While the unit box of an axis is untouched, the page shows that
    axis in the unit bound to its variable (or under the variable's own
    name when it is unknown) with a factor equal to 1: the plotted sample
    values are the loaded ones. *)
Theorem untouched_units_show_raw (csv : option (DataFrame cell))
    (ui : sidebar) (pg : page) (f : fit) (c : chart) :
  main csv ui = Ok pg -> fitted pg = Some f -> drawn pg = Some c ->
  (pick_x_unit ui = None ->
   (x_conv_factor c == 1)%Q /\
   (exists xv category options,
       x_var f = Some xv /\
       get_unit_info xv = Ok (category, options) /\
       x_unit_selected c = Some (snd category)) /\
   Forall2 Qeq (map (fun p => fst (fst p)) (plot_df_scatter c)) (x_data f)) /\
  (pick_y_unit ui = None ->
   (y_conv_factor c == 1)%Q /\
   (exists yv category options,
       y_var f = Some yv /\
       get_unit_info yv = Ok (category, options) /\
       y_unit_selected c = Some (snd category)) /\
   Forall2 Qeq (map (fun p => snd (fst p)) (plot_df_scatter c)) (y_data f)).
Proof.
  intros Hmain Hfit Hdrawn.
  destruct (main_drawn _ _ _ _ Hmain Hdrawn)
    as (f' & xv & yv & [[x_cat x_base] x_opts] & [[y_cat y_base] y_opts] &
        x_said & y_said & Hf' & Hxv & Hyv & Hxi & Hyi & Hxs & Hys & Hxf &
        Hyf & _).
  rewrite Hfit in Hf'. injection Hf' as <-.
  destruct (main_scatter _ _ _ _ _ Hmain Hfit Hdrawn) as (_ & Sx & Sy & _).
  cbn [fst snd] in Hxf, Hyf.
  split; intros Hpick.
  - rewrite Hpick in Hxs.
    destruct (untouched_unit _ _ _ _ _ _ _ _ Hxi Hxs Hxf) as [Hunit Hone].
    split; [exact Hone |]. split.
    + exists xv, (x_cat, x_base), x_opts. repeat split; assumption.
    + rewrite Sx. now apply scale_unit.
  - rewrite Hpick in Hys.
    destruct (untouched_unit _ _ _ _ _ _ _ _ Hyi Hys Hyf) as [Hunit Hone].
    split; [exact Hone |]. split.
    + exists yv, (y_cat, y_base), y_opts. repeat split; assumption.
    + rewrite Sy. now apply scale_unit.
Qed.

(** *** The chart *)

Lemma nth_error_scale (values : list Q) (factor : Q) (i : nat) :
  nth_error (scale values factor) i =
  option_map (fun v => (v * factor)%Q) (nth_error values i).
Proof. unfold scale. apply nth_error_map. Qed.

(** X5.  The scatter frame of a page holds one point for every loaded row
    of the selected curve, in the order of the rows: point [i] is row
    [i] with its two values multiplied by the factors of the axes, and
    carries [i] as its order. *)
Theorem scatter_shows_every_sample (csv : option (DataFrame cell))
    (ui : sidebar) (pg : page) (f : fit) (c : chart) :
  main csv ui = Ok pg -> fitted pg = Some f -> drawn pg = Some c ->
  exists curve_title,
    selected_title pg = Some curve_title /\
    let rows := curve_rows curve_title (snd (load_data csv)) in
    length (plot_df_scatter c) = length rows /\
    forall i r,
      nth_error rows i = Some r ->
      nth_error (plot_df_scatter c) i =
      Some ((X_Value r * x_conv_factor c)%Q, (Y_Value r * y_conv_factor c)%Q,
            Z.of_nat i).
Proof.
  intros Hmain Hfit Hdrawn.
  destruct (main_drawn _ _ _ _ Hmain Hdrawn)
    as (f' & xv & yv & x_info & y_info & x_said & y_said & Hf' & _ & _ &
        _ & _ & _ & _ & _ & _ & Hplot).
  rewrite Hfit in Hf'. injection Hf' as <-.
  pose proof (main_fitted _ _ _ Hmain) as Hfor. rewrite Hfit in Hfor.
  symmetry in Hfor. apply fit_for_Some in Hfor.
  destruct Hfor as (curve_title & Hsel & _ & _ & Hshape).
  exists curve_title. split; [exact Hsel |]. intros rows. fold rows in Hshape.
  unfold plot_data in Hplot. injection Hplot as Hscatter _.
  rewrite <- Hscatter, Hshape. unfold fit_of. cbn [x_data y_data].
  split.
  - rewrite !length_combine, arange_length. unfold scale.
    rewrite !length_map. lia.
  - intros i r Hr.
    assert (Hi : (i < length rows)%nat) by (apply nth_error_Some; congruence).
    apply nth_error_combine; [apply nth_error_combine |].
    + now rewrite nth_error_scale, nth_error_map, Hr.
    + now rewrite nth_error_scale, nth_error_map, Hr.
    + unfold scale, np.arange. rewrite !length_map, Nat2Z.id.
      rewrite nth_error_map, nth_error_seq.
      replace (i <? length rows)%nat with true
        by (symmetry; now apply Nat.ltb_lt).
      reflexivity.
Qed.

Lemma resample_ends (rows : DataFrame Q) (count : nat) :
  (2 <= length rows)%nat -> (2 <= count)%nat ->
  let f := fit_of rows in
  exists x0 y0 t0 x1 y1 t1,
    nth_error (resample f count) 0 = Some (x0, y0, t0) /\
    nth_error (resample f count) (count - 1) = Some (x1, y1, t1) /\
    (x0 == nth 0 (map X_Value rows) 0)%Q /\
    (y0 == nth 0 (map Y_Value rows) 0)%Q /\
    (x1 == nth (length rows - 1) (map X_Value rows) 0)%Q /\
    (y1 == nth (length rows - 1) (map Y_Value rows) 0)%Q /\
    (t0 == 0)%Q /\ t1 = inject_Z (Z.of_nat (length rows) - 1).
Proof.
  intros Hrows Hcount f.
  set (n := length rows) in *.
  set (stop := inject_Z (Z.of_nat n - 1)).
  assert (Hres : resample f count =
    combine (combine (map (spline_call (spline_x f)) (np.linspace 0 stop count))
                     (map (spline_call (spline_y f)) (np.linspace 0 stop count)))
            (np.linspace 0 stop count)).
  { unfold resample, f, fit_of. cbn [x_data spline_x spline_y].
    now rewrite length_map. }
  destruct (linspace_nth stop count 0 Hcount ltac:(lia)) as (N0 & _ & P0).
  destruct (linspace_nth stop count (count - 1) Hcount ltac:(lia))
    as (N1 & L1 & _).
  set (t0 := nth 0 (np.linspace 0 stop count) 0%Q) in *.
  set (t1 := nth (count - 1) (np.linspace 0 stop count) 0%Q) in *.
  assert (H0 : (t0 == 0)%Q) by (rewrite P0; apply Qmult_0_l).
  assert (H1 : t1 = stop) by (apply L1; lia).
  assert (Hx : forall i t, (i < n)%nat -> (t == inject_Z (Z.of_nat i))%Q ->
             (spline_call (spline_x f) t == nth i (map X_Value rows) 0)%Q).
  { intros i t Hi Ht. unfold f, fit_of. cbn [spline_x].
    eapply spline_interpolates with (i := i).
    - apply UnivariateSpline_accepts; [now rewrite length_map | exact Hrows].
    - reflexivity.
    - now rewrite knots_length.
    - rewrite knots_nth by exact Hi. exact Ht. }
  assert (Hy : forall i t, (i < n)%nat -> (t == inject_Z (Z.of_nat i))%Q ->
             (spline_call (spline_y f) t == nth i (map Y_Value rows) 0)%Q).
  { intros i t Hi Ht. unfold f, fit_of. cbn [spline_y].
    eapply spline_interpolates with (i := i).
    - apply UnivariateSpline_accepts; [now rewrite length_map | exact Hrows].
    - reflexivity.
    - now rewrite knots_length.
    - rewrite knots_nth by exact Hi. exact Ht. }
  assert (Hstop : (stop == inject_Z (Z.of_nat (n - 1)))%Q).
  { unfold stop. replace (Z.of_nat n - 1)%Z with (Z.of_nat (n - 1)) by lia.
    reflexivity. }
  exists (spline_call (spline_x f) t0), (spline_call (spline_y f) t0), t0,
    (spline_call (spline_x f) t1), (spline_call (spline_y f) t1), t1.
  rewrite Hres.
  split.
  { apply nth_error_combine; [apply nth_error_combine |];
      rewrite ?nth_error_map, ?N0; reflexivity. }
  split.
  { apply nth_error_combine; [apply nth_error_combine |];
      rewrite ?nth_error_map, ?N1; reflexivity. }
  split; [apply Hx; [lia | exact H0] |].
  split; [apply Hy; [lia | exact H0] |].
  split; [rewrite H1; apply Hx; [lia | exact Hstop] |].
  split; [rewrite H1; apply Hy; [lia | exact Hstop] |].
  split; [exact H0 | exact H1].
Qed.

Lemma plot_data_scatter_nth (rows : DataFrame Q) (fx fy : Q) (i : nat)
    (r : Row Q) :
  nth_error rows i = Some r ->
  nth_error (fst (plot_data (fit_of rows) fx fy)) i =
  Some ((X_Value r * fx)%Q, (Y_Value r * fy)%Q, Z.of_nat i).
Proof.
  intros Hr. unfold plot_data, fit_of. cbn [fst x_data y_data].
  assert (Hi : (i < length rows)%nat) by (apply nth_error_Some; congruence).
  apply nth_error_combine; [apply nth_error_combine |].
  - now rewrite nth_error_scale, nth_error_map, Hr.
  - now rewrite nth_error_scale, nth_error_map, Hr.
  - unfold scale, np.arange. rewrite !length_map, Nat2Z.id.
    rewrite nth_error_map, nth_error_seq.
    replace (i <? length rows)%nat with true
      by (symmetry; now apply Nat.ltb_lt).
    reflexivity.
Qed.

(** X6.  On a page with a chart the fitted line has 200 points, starts at
    the first scatter point and ends at the last one (scipy keeping its
    promise for [s = 0]); its order column runs from 0 to [n - 1]. *)
Theorem line_joins_end_samples (csv : option (DataFrame cell))
    (ui : sidebar) (pg : page) (f : fit) (c : chart) :
  main csv ui = Ok pg -> fitted pg = Some f -> drawn pg = Some c ->
  let n := length (x_data f) in
  length (plot_df_line c) = 200%nat /\
  exists lx0 ly0 lt0 lx1 ly1 lt1 sx0 sy0 sx1 sy1,
    nth_error (plot_df_line c) 0 = Some (lx0, ly0, lt0) /\
    nth_error (plot_df_line c) 199 = Some (lx1, ly1, lt1) /\
    nth_error (plot_df_scatter c) 0 = Some (sx0, sy0, 0%Z) /\
    nth_error (plot_df_scatter c) (n - 1) = Some (sx1, sy1, Z.of_nat (n - 1)) /\
    (lx0 == sx0)%Q /\ (ly0 == sy0)%Q /\ (lx1 == sx1)%Q /\ (ly1 == sy1)%Q /\
    (lt0 == 0)%Q /\ lt1 = inject_Z (Z.of_nat n - 1).
Proof.
  intros Hmain Hfit Hdrawn n.
  destruct (main_drawn _ _ _ _ Hmain Hdrawn)
    as (f' & xv & yv & x_info & y_info & x_said & y_said & Hf' & _ & _ &
        _ & _ & _ & _ & _ & _ & Hplot).
  rewrite Hfit in Hf'. injection Hf' as <-.
  pose proof (main_fitted _ _ _ Hmain) as Hfor. rewrite Hfit in Hfor.
  symmetry in Hfor. apply fit_for_Some in Hfor.
  destruct Hfor as (curve_title & _ & _ & Hrows & Hshape).
  set (rows := curve_rows curve_title (snd (load_data csv))) in *.
  assert (Hn : n = length rows).
  { unfold n. rewrite Hshape. apply fit_of_lengths. }
  assert (Hscatter : plot_df_scatter c =
                     fst (plot_data (fit_of rows) (x_conv_factor c)
                                    (y_conv_factor c)))
    by (rewrite <- Hshape, Hplot; reflexivity).
  assert (Hline : plot_df_line c =
    map (fun p => let '(x, y, t) := p in
                  ((x * x_conv_factor c)%Q, (y * y_conv_factor c)%Q, t))
        (resample f 200)).
  { unfold plot_data in Hplot. now injection Hplot as _ <-. }
  destruct (resample_ends rows 200 Hrows ltac:(lia))
    as (x0 & y0 & t0 & x1 & y1 & t1 & R0 & R1 & Hx0 & Hy0 & Hx1 & Hy1 &
        Ht0 & Ht1).
  rewrite <- Hshape in R0, R1. change (200 - 1)%nat with 199%nat in R1.
  destruct (nth_error rows 0) as [r0 |] eqn:E0;
    [| apply nth_error_None in E0; lia].
  destruct (nth_error rows (n - 1)) as [r1 |] eqn:E1;
    [| apply nth_error_None in E1; lia].
  assert (V0 : nth 0 (map X_Value rows) 0%Q = X_Value r0 /\
               nth 0 (map Y_Value rows) 0%Q = Y_Value r0).
  { split; apply nth_error_nth; now rewrite nth_error_map, E0. }
  assert (V1 : nth (n - 1) (map X_Value rows) 0%Q = X_Value r1 /\
               nth (n - 1) (map Y_Value rows) 0%Q = Y_Value r1).
  { split; apply nth_error_nth; now rewrite nth_error_map, E1. }
  rewrite <- Hn in Hx1, Hy1, Ht1.
  destruct V0 as [Vx0 Vy0]. destruct V1 as [Vx1 Vy1].
  rewrite Vx0 in Hx0. rewrite Vy0 in Hy0.
  rewrite Vx1 in Hx1. rewrite Vy1 in Hy1.
  split.
  { rewrite Hline, length_map. unfold resample.
    rewrite !length_combine, !length_map, linspace_length. lia. }
  exists (x0 * x_conv_factor c)%Q, (y0 * y_conv_factor c)%Q, t0,
    (x1 * x_conv_factor c)%Q, (y1 * y_conv_factor c)%Q, t1,
    (X_Value r0 * x_conv_factor c)%Q, (Y_Value r0 * y_conv_factor c)%Q,
    (X_Value r1 * x_conv_factor c)%Q, (Y_Value r1 * y_conv_factor c)%Q.
  split. { now rewrite Hline, nth_error_map, R0. }
  split. { now rewrite Hline, nth_error_map, R1. }
  split. { rewrite Hscatter. apply (plot_data_scatter_nth rows _ _ 0 r0 E0). }
  split. { rewrite Hscatter. apply (plot_data_scatter_nth rows _ _ _ r1 E1). }
  split; [now rewrite Hx0 |]. split; [now rewrite Hy0 |].
  split; [now rewrite Hx1 |]. split; [now rewrite Hy1 |].
  split; [exact Ht0 | exact Ht1].
Qed.

(** *** The sidebar *)

(** X7.  For a filter on a column of text (strings and missing values):
    picking the [i]-th value offered after the label keeps exactly the
    rows whose column holds that value, and at least one row; a value that
    is itself the text "All" filters nothing.  A pick beyond the offered
    values raises.  (These picks do not depend on how the label in front
    is stored.) *)
Theorem filter_by_pick (col : Row Q -> text) (df : DataFrame Q) (i : nat)
    (s : string) :
  nth_error (pd.unique String.eqb (pd.dropna (map col df))) i = Some s ->
  let kept := if String.eqb s "All" then df
              else filter (fun r => text_eq (col r) s) df in
  filter_by col (Some (S i)) df = Ok kept /\
  (exists r, In r kept) /\
  (s <> "All" -> forall r, In r kept <-> In r df /\ col r = Some s) /\
  (forall j,
      (length (pd.unique String.eqb (pd.dropna (map col df))) <= j)%nat ->
      filter_by col (Some (S j)) df = Raise StreamlitAPIException).
Proof.
  intros Hs kept.
  assert (Hrow : exists r, In r df /\ col r = Some s).
  { apply nth_error_In, unique_In, In_dropna, in_map_iff in Hs.
    destruct Hs as (r & Hc & Hr). now exists r. }
  split.
  { unfold filter_by, np.insert0, st.selectbox. cbn [nth_error].
    rewrite Hs. cbn [bind]. unfold kept.
    now destruct (s =? "All"). }
  split.
  { destruct Hrow as (r & Hr & Hc). exists r. unfold kept.
    destruct (s =? "All"); [exact Hr |].
    apply filter_In. split; [exact Hr |].
    rewrite Hc. apply String.eqb_refl. }
  split.
  { intros Hne r. unfold kept.
    replace (s =? "All") with false by (symmetry; now apply String.eqb_neq).
    rewrite filter_In. unfold text_eq.
    destruct (col r) as [c |].
    - rewrite String.eqb_eq.
      split; intros [Hr Hc]; (split; [exact Hr | congruence]).
    - split; intros [Hr Hc]; discriminate Hc. }
  intros j Hj. unfold filter_by, np.insert0, st.selectbox. cbn [nth_error].
  apply nth_error_None in Hj. now rewrite Hj.
Qed.

Lemma text_same_eq (a b : text) : text_same a b = true <-> a = b.
Proof.
  destruct a as [s |], b as [s' |]; simpl; try (split; congruence).
  rewrite String.eqb_eq. split; congruence.
Qed.

Lemma unique_from_spec {A : Type} (eqb : A -> A -> bool)
    (seen l : list A) :
  (forall a b, eqb a b = true <-> a = b) ->
  NoDup (pd.unique_from eqb seen l) /\
  forall a, In a (pd.unique_from eqb seen l) <-> In a l /\ ~ In a seen.
Proof.
  intros Heq.
  assert (Hseen : forall a seen, existsb (eqb a) seen = true <-> In a seen).
  { intros a k. rewrite existsb_exists. split.
    - intros (b & Hb & E). apply Heq in E. now subst.
    - intros H. exists a. split; [exact H | now apply Heq]. }
  revert seen. induction l as [| b l IH]; intros seen; simpl.
  - split; [constructor | tauto].
  - destruct (existsb (eqb b) seen) eqn:E.
    + apply Hseen in E. destruct (IH seen) as [Hnd Hin].
      split; [exact Hnd |]. intros a. rewrite Hin.
      split; [tauto |]. intros [[-> | H] Hn]; tauto.
    + assert (Hb : ~ In b seen) by (rewrite <- Hseen; congruence).
      destruct (IH (b :: seen)) as [Hnd Hin].
      split.
      * constructor; [| exact Hnd]. rewrite Hin. simpl. tauto.
      * intros a. simpl. rewrite Hin. simpl.
        split.
        -- intros [<- | [H Hn]]; tauto.
        -- intros [[<- | H] Hn]; [now left |].
           destruct (eqb b a) eqn:Eba.
           ++ left. now apply Heq.
           ++ right. split; [exact H |]. intros [Hba | Hs]; [| tauto].
              apply Heq in Hba. congruence.
Qed.

Lemma unique_from_in_order {A : Type} (eqb : A -> A -> bool)
    (seen l : list A) :
  in_order (pd.unique_from eqb seen l) l.
Proof.
  revert seen. induction l as [| a l IH]; intros seen; simpl;
    [constructor |].
  destruct (existsb (eqb a) seen); constructor; apply IH.
Qed.

(** X8.  The curve box lists every title of the filtered rows exactly
    once, missing titles counting as one entry, in the order of the rows
    and starting with the title of the first row; the selected title is
    one of the listed ones, and the list is empty, with the "no curve"
    warning and no selection, only for an empty table. *)
Theorem curve_titles_distinct (ui : sidebar) (filtered_df : DataFrame Q)
    (found : list notice) (titles : list text) (selected : option text) :
  choose_title ui filtered_df = Ok (found, titles, selected) ->
  NoDup titles /\
  (forall t, In t titles <-> In t (map title filtered_df)) /\
  (forall t, selected = Some t -> In t titles) /\
  in_order titles (map title filtered_df) /\
  hd_error titles = hd_error (map title filtered_df) /\
  (filtered_df = [] <-> found = [no_curve_found]) /\
  (filtered_df = [] <-> selected = None).
Proof.
  intros Hchoose.
  destruct (choose_title_In _ _ _ _ _ Hchoose) as (Htitles & _ & Hsel).
  destruct (unique_from_spec text_same [] (map title filtered_df) text_same_eq)
    as [Hnd Hin].
  fold (pd.unique text_same (map title filtered_df)) in Hnd, Hin.
  rewrite <- Htitles in Hnd, Hin.
  split; [exact Hnd |].
  split. { intros t. rewrite Hin. simpl. tauto. }
  split; [exact Hsel |].
  split. { rewrite Htitles. apply unique_from_in_order. }
  split.
  { rewrite Htitles. destruct filtered_df as [| r rest]; reflexivity. }
  unfold choose_title in Hchoose.
  destruct filtered_df as [| r rest].
  - cbn in Hchoose. injection Hchoose as <- _ <-. split; split; reflexivity.
  - change (pd.unique text_same (map title (r :: rest)))
      with (title r :: pd.unique_from text_same [title r] (map title rest))
      in Hchoose.
    unfold st.selectbox in Hchoose.
    destruct (nth_error _ _) as [t |] in Hchoose; [| discriminate Hchoose].
    cbn [bind] in Hchoose. injection Hchoose as <- _ <-.
    split; split; discriminate.
Qed.

(** *** Loading and fitting *)

Lemma dropna_all_none {A B : Type} (g : A -> option B) (l : list A) :
  (forall a, In a l -> g a = None) -> pd.dropna (map g l) = [].
Proof.
  induction l as [| a l IH]; simpl; [reflexivity |].
  intros H. rewrite (H a) by now left. apply IH. intros b Hb.
  apply H. now right.
Qed.

Lemma dropna_length {A : Type} (l : list (option A)) :
  (length (pd.dropna l) <= length l)%nat.
Proof. induction l as [| [a |] l IH]; simpl; lia. Qed.

Lemma dropna_all_some {A B : Type} (g : A -> option B) (l : list A) :
  (forall a, In a l -> exists b, g a = Some b) ->
  length (pd.dropna (map g l)) = length l.
Proof.
  induction l as [| a l IH]; simpl; [reflexivity |].
  intros H. destruct (H a) as (b & ->); [now left |].
  simpl. f_equal. apply IH. intros c Hc. apply H. now right.
Qed.

(** X9.  When the file is missing, or every row lacks one of its two
    numbers, the table is empty and the run ends with an empty page
    whatever the sidebar holds: no select box is consulted, nothing is
    fitted, nothing raises. *)
Theorem nothing_loaded_nothing_shown (csv : option (DataFrame cell))
    (ui : sidebar) :
  (csv = None \/
   exists raw, csv = Some raw /\
     forall r, In r raw ->
       not_a_number (X_Value r) \/ not_a_number (Y_Value r)) ->
  load_data csv =
    (match csv with None => [file_not_found] | Some _ => [] end, []) /\
  main csv ui =
    Ok (mkPage (match csv with None => [file_not_found] | Some _ => [] end)
               [] None None None).
Proof.
  intros H.
  assert (Hload : load_data csv =
    (match csv with None => [file_not_found] | Some _ => [] end, [])).
  { destruct H as [-> | (raw & -> & Hbad)]; [reflexivity |].
    rewrite load_data_reading. f_equal. apply dropna_all_none.
    intros r Hr. apply reading_None, Hbad, Hr. }
  split; [exact Hload |]. unfold main. now rewrite Hload.
Qed.

(** X10.  A row of the file with a number in both value columns is always
    loaded, with exactly these two numbers; the loaded table is never
    longer than the file, and as long when every row has both numbers. *)
Theorem numeric_rows_kept (raw : DataFrame cell) (r : Row cell) (x y : Q) :
  In r raw -> X_Value r = CNum x -> Y_Value r = CNum y ->
  In (with_values (replace_nan r) x y) (snd (load_data (Some raw))) /\
  (length (snd (load_data (Some raw))) <= length raw)%nat /\
  ((forall r0, In r0 raw ->
       exists x0 y0, X_Value r0 = CNum x0 /\ Y_Value r0 = CNum y0) ->
   length (snd (load_data (Some raw))) = length raw /\
   samples (snd (load_data (Some raw))) =
     map (fun r0 => (match X_Value r0 with CNum q => q | _ => 0%Q end,
                     match Y_Value r0 with CNum q => q | _ => 0%Q end)) raw).
Proof.
  intros Hin Hx Hy. rewrite load_data_reading. cbn [snd].
  assert (Hread : forall r0 x0 y0,
            X_Value r0 = CNum x0 -> Y_Value r0 = CNum y0 ->
            reading r0 = Some (with_values (replace_nan r0) x0 y0)).
  { intros r0 x0 y0 E1 E2. unfold reading. cbn. now rewrite E1, E2. }
  split.
  { apply In_dropna, in_map_iff. exists r. split; [| exact Hin].
    now apply Hread. }
  split.
  { etransitivity; [apply dropna_length |]. now rewrite length_map. }
  intros Hall. split.
  { apply dropna_all_some. intros r0 Hr0.
    destruct (Hall r0 Hr0) as (x0 & y0 & E1 & E2).
    eexists. exact (Hread r0 x0 y0 E1 E2). }
  clear Hin. induction raw as [| r0 raw IH]; [reflexivity |].
  destruct (Hall r0) as (x0 & y0 & E1 & E2); [now left |].
  cbn [map pd.dropna]. rewrite (Hread r0 x0 y0 E1 E2).
  cbn [pd.dropna samples map]. unfold samples in IH. rewrite IH.
  - now rewrite E1, E2.
  - intros r1 Hr1. apply Hall. now right.
Qed.

(** X11.  The fit always returns: for every table and title it is either
    the warning for fewer than two points with no tuple, or a tuple with
    no message.  The spline constructor is never refused, so the error
    message of the [except] branch is never sent, and [.iloc[0]] never
    fails.  A returned tuple holds as many x as y samples, the number of
    rows of the curve, and the variable names of the curve's first row. *)
Theorem fit_never_fails_to_build (curve_title : text) (df : DataFrame Q) :
  let rows := curve_rows curve_title df in
  exists said fitted,
    get_fitted_spline curve_title df = Ok (said, fitted) /\
    (forall k n, ~ In (spline_failed curve_title k n) said) /\
    (fitted = None <-> (length rows < 2)%nat) /\
    (fitted = None -> said = [too_few_points curve_title]) /\
    forall f, fitted = Some f ->
      said = [] /\
      length (x_data f) = length rows /\ length (y_data f) = length rows /\
      x_var f = match rows with r0 :: _ => X_Variable r0 | [] => None end /\
      y_var f = match rows with r0 :: _ => Y_Variable r0 | [] => None end.
Proof.
  intros rows. rewrite get_fitted_spline_cases. fold rows.
  destruct (Nat.ltb_spec (length rows) 2) as [Hlt | Hge].
  - exists [too_few_points curve_title], None.
    split; [reflexivity |].
    split. { intros k n [H | []]. discriminate H. }
    split; [tauto |]. split; [reflexivity | discriminate].
  - exists [], (Some (fit_of rows)).
    split; [reflexivity |].
    split. { intros k n []. }
    split. { split; [discriminate | lia]. }
    split; [discriminate |].
    intros f [= <-]. destruct (fit_of_lengths rows) as [Lx Ly].
    repeat split; assumption.
Qed.

(** *** Edges of the page *)

Lemma curve_rows_missing_title (df : DataFrame Q) : curve_rows None df = [].
Proof.
  unfold curve_rows. induction df as [| r df IH]; [reflexivity |].
  cbn [filter]. now destruct (title r).
Qed.

(** X12.  Rows without a title are never fitted.  Their missing title is
    offered in the curve box like any other, and selecting it counts as a
    selection, but the comparison with a missing value matches no row: the
    fit sees no point and the page shows the too-few-points warning and no
    chart, however many such rows there are. *)
Theorem missing_title_never_fitted (df : DataFrame Q) :
  curve_rows None df = [] /\
  get_fitted_spline None df = Ok ([too_few_points None], None) /\
  (forall ui found titles selected,
      choose_title ui df = Ok (found, titles, selected) ->
      (In None titles <-> exists r, In r df /\ title r = None)) /\
  forall csv ui pg,
    snd (load_data csv) = df ->
    main csv ui = Ok pg ->
    selected_title pg = Some None ->
    fitted pg = None /\ drawn pg = None.
Proof.
  pose proof (curve_rows_missing_title df) as Hnone.
  assert (Hfit : get_fitted_spline None df = Ok ([too_few_points None], None)).
  { apply get_fitted_spline_few. rewrite Hnone. simpl. lia. }
  split; [exact Hnone |]. split; [exact Hfit |]. split.
  - intros ui found titles selected Hchoose.
    destruct (choose_title_In _ _ _ _ _ Hchoose) as (Htitles & _ & _).
    destruct (unique_from_spec text_same [] (map title df) text_same_eq)
      as [_ Hin].
    fold (pd.unique text_same (map title df)) in Hin.
    rewrite Htitles, Hin, in_map_iff. simpl.
    split.
    + intros [(r & Ht & Hr) _]. now exists r.
    + intros (r & Hr & Ht). split; [now exists r | tauto].
  - intros csv ui pg Hdf Hmain Hsel.
    assert (Hfitted : fitted pg = None).
    { rewrite (main_fitted _ _ _ Hmain), Hsel, Hdf. cbn. now rewrite Hfit. }
    split; [exact Hfitted |].
    destruct (drawn pg) as [c |] eqn:Hdrawn; [| reflexivity].
    destruct (main_drawn _ _ _ _ Hmain Hdrawn) as (f & _ & _ & _ & _ & _ & _ &
                                                    Hf & _).
    congruence.
Qed.

(** X13.  A fitted curve whose first row has no X variable name makes the
    run raise [AttributeError] (the name is split at a space before
    anything is drawn); so does a missing Y variable name once the X unit
    box has been answered. *)
Theorem missing_variable_name_raises (csv : option (DataFrame cell))
    (ui : sidebar) (loaded found : list notice) (df filtered_df : DataFrame Q)
    (titles : list text) (curve_title : text) (r0 : Row Q)
    (rest : DataFrame Q) :
  load_data csv = (loaded, df) ->
  filters ui df = Ok filtered_df ->
  choose_title ui filtered_df = Ok (found, titles, Some curve_title) ->
  truthy curve_title = true ->
  curve_rows curve_title df = r0 :: rest -> rest <> [] ->
  (X_Variable r0 = None -> main csv ui = Raise AttributeError) /\
  (forall xv x_info x_selected,
      X_Variable r0 = Some xv -> Y_Variable r0 = None ->
      get_unit_info xv = Ok x_info ->
      select_unit unknown_x_variable xv x_info (pick_x_unit ui) =
        Ok x_selected ->
      main csv ui = Raise AttributeError).
Proof.
  intros Hload Hfilters Hchoose Htruthy Hrows Hrest.
  assert (Hn : (2 <= length (curve_rows curve_title df))%nat).
  { rewrite Hrows. destruct rest; [contradiction | simpl; lia]. }
  assert (Hfit : get_fitted_spline curve_title df =
                 Ok ([], Some (fit_of (r0 :: rest))))
    by (rewrite <- Hrows; now apply get_fitted_spline_fits).
  destruct df as [| r df']; [discriminate Hrows |].
  unfold main. rewrite Hload, Hfilters. cbn [bind].
  rewrite Hchoose. cbn [bind]. rewrite Htruthy, Hfit. cbn [bind].
  unfold fit_of. cbn [x_var y_var].
  split.
  - intros Hx. rewrite Hx. cbn [unit_info_of bind as_str].
    destruct (Y_Variable r0) as [yv |]; cbn [unit_info_of].
    + destruct (get_unit_info_total yv) as (info & ->). reflexivity.
    + reflexivity.
  - intros xv x_info x_selected Hx Hy Hinfo Hsel. rewrite Hx, Hy.
    cbn [unit_info_of as_str]. rewrite Hinfo. cbn [bind].
    rewrite Hsel. cbn [bind]. destruct x_selected. reflexivity.
Qed.

Lemma bound_unit_info (var_name category native : string)
    (units : dict Q) :
  dict_get VARIABLE_TO_CATEGORY var_name = Some (category, native) ->
  dict_get CONVERSION_FACTORS category = Some units ->
  get_unit_info var_name = Ok (category, native, dict_keys units).
Proof.
  intros Hb Hc. unfold get_unit_info, dict_mem, dict_item.
  rewrite Hb. cbn [bind]. now rewrite Hc.
Qed.

Lemma select_unit_picked (unknown : string -> notice)
    (var_name category native : string) (units : dict Q) (vn : Q)
    (i : nat) (u : string) :
  dict_get CONVERSION_FACTORS category = Some units ->
  dict_get units native = Some vn ->
  nth_error (dict_keys units) i = Some u ->
  select_unit unknown var_name (category, native, dict_keys units) (Some i) =
  Ok ([], Some u).
Proof.
  intros Hc Hn Hu. unfold select_unit. rewrite (category_known _ _ Hc).
  destruct (list_index_nth _ _ (dict_get_keys _ _ _ Hn)) as (idx & -> & _).
  cbn [bind]. unfold st.selectbox.
  destruct (dict_keys units) as [| u0 us] eqn:K;
    [destruct i; discriminate Hu |].
  now rewrite Hu.
Qed.

(** X14.  Picking the [i]-th unit of the category for an axis whose
    variable is in the binding table shows that unit on the page and
    multiplies the samples of the axis by (value of the bound unit) /
    (value of the picked unit). *)
Theorem picked_unit_converts (csv : option (DataFrame cell)) (ui : sidebar)
    (pg : page) (f : fit) (c : chart) :
  main csv ui = Ok pg -> fitted pg = Some f -> drawn pg = Some c ->
  (forall xv category native units i u vn vu,
      x_var f = Some xv ->
      dict_get VARIABLE_TO_CATEGORY xv = Some (category, native) ->
      dict_get CONVERSION_FACTORS category = Some units ->
      dict_get units native = Some vn -> dict_get units u = Some vu ->
      pick_x_unit ui = Some i -> nth_error (dict_keys units) i = Some u ->
      x_unit_selected c = Some u /\ x_conv_factor c = (vn / vu)%Q /\
      map (fun p => fst (fst p)) (plot_df_scatter c) =
        scale (x_data f) (vn / vu)) /\
  (forall yv category native units i u vn vu,
      y_var f = Some yv ->
      dict_get VARIABLE_TO_CATEGORY yv = Some (category, native) ->
      dict_get CONVERSION_FACTORS category = Some units ->
      dict_get units native = Some vn -> dict_get units u = Some vu ->
      pick_y_unit ui = Some i -> nth_error (dict_keys units) i = Some u ->
      y_unit_selected c = Some u /\ y_conv_factor c = (vn / vu)%Q /\
      map (fun p => snd (fst p)) (plot_df_scatter c) =
        scale (y_data f) (vn / vu)).
Proof.
  intros Hmain Hfit Hdrawn.
  destruct (main_drawn _ _ _ _ Hmain Hdrawn)
    as (f' & xv' & yv' & x_info & y_info & x_said & y_said & Hf' & Hxv &
        Hyv & Hxi & Hyi & Hxs & Hys & Hxf & Hyf & _).
  rewrite Hfit in Hf'. injection Hf' as <-.
  destruct (main_scatter _ _ _ _ _ Hmain Hfit Hdrawn) as (_ & Sx & Sy & _).
  split.
  - intros xv category native units i u vn vu Hv Hb Hc Hn Hu Hpick Hnth.
    rewrite Hv in Hxv. injection Hxv as <-.
    rewrite (bound_unit_info _ _ _ _ Hb Hc) in Hxi.
    injection Hxi as <-. cbn [fst snd] in Hxf.
    rewrite Hpick, (select_unit_picked _ _ _ _ _ _ _ _ Hc Hn Hnth) in Hxs.
    injection Hxs as _ Hsel. rewrite <- Hsel in Hxf.
    cbn [factor_of] in Hxf.
    rewrite (conv_factor_value _ _ _ _ _ _ Hc Hn Hu) in Hxf.
    injection Hxf as Hf.
    split; [now symmetry |]. split; [now symmetry |].
    rewrite Sx, <- Hf. reflexivity.
  - intros yv category native units i u vn vu Hv Hb Hc Hn Hu Hpick Hnth.
    rewrite Hv in Hyv. injection Hyv as <-.
    rewrite (bound_unit_info _ _ _ _ Hb Hc) in Hyi.
    injection Hyi as <-. cbn [fst snd] in Hyf.
    rewrite Hpick, (select_unit_picked _ _ _ _ _ _ _ _ Hc Hn Hnth) in Hys.
    injection Hys as _ Hsel. rewrite <- Hsel in Hyf.
    cbn [factor_of] in Hyf.
    rewrite (conv_factor_value _ _ _ _ _ _ Hc Hn Hu) in Hyf.
    injection Hyf as Hf.
    split; [now symmetry |]. split; [now symmetry |].
    rewrite Sy, <- Hf. reflexivity.
Qed.

Lemma curve_rows_columns (curve_title : text) (df df' : DataFrame Q) :
  map fitted_columns df = map fitted_columns df' ->
  map fitted_columns (curve_rows curve_title df) =
  map fitted_columns (curve_rows curve_title df').
Proof.
  revert df'. induction df as [| r df IH]; intros [| r' df'];
    try discriminate; [reflexivity |].
  cbn [map]. intros Heq.
  assert (Hr : fitted_columns r = fitted_columns r') by congruence.
  assert (Hdf : map fitted_columns df = map fitted_columns df') by congruence.
  assert (Ht : title r = title r').
  { change (fst (fst (fst (fst (fitted_columns r)))) =
            fst (fst (fst (fst (fitted_columns r'))))).
    now rewrite Hr. }
  unfold curve_rows. cbn [filter].
  rewrite Ht. destruct (text_eqb (title r') curve_title).
  - cbn [map]. rewrite Hr. f_equal. now apply IH.
  - now apply IH.
Qed.

(** X15.  The fit looks at five columns only: the title, the two values
    and the two variable names.  Two tables that agree on these columns,
    row by row, give the same result for every title, whatever their
    geometry, material and other attribute columns hold. *)
Theorem fit_reads_five_columns (curve_title : text) (df df' : DataFrame Q) :
  map fitted_columns df = map fitted_columns df' ->
  get_fitted_spline curve_title df = get_fitted_spline curve_title df'.
Proof.
  intros H. apply (curve_rows_columns curve_title) in H.
  rewrite !get_fitted_spline_cases.
  set (rows := curve_rows curve_title df) in *.
  set (rows' := curve_rows curve_title df') in *.
  assert (Hlen : length rows = length rows').
  { rewrite <- (length_map fitted_columns rows), H. apply length_map. }
  assert (Hx : map X_Value rows = map X_Value rows').
  { transitivity
      (map (fun c : text * Q * Q * text * text => snd (fst (fst (fst c))))
           (map fitted_columns rows)); [now rewrite map_map |].
    rewrite H. now rewrite map_map. }
  assert (Hy : map Y_Value rows = map Y_Value rows').
  { transitivity
      (map (fun c : text * Q * Q * text * text => snd (fst (fst c)))
           (map fitted_columns rows)); [now rewrite map_map |].
    rewrite H. now rewrite map_map. }
  rewrite Hlen. destruct (length rows' <? 2)%nat; [reflexivity |].
  unfold fit_of. rewrite Hlen, Hx, Hy.
  destruct rows as [| r0 rest], rows' as [| r0' rest']; try discriminate Hlen;
    [reflexivity |].
  cbn [map] in H.
  assert (Hr : fitted_columns r0 = fitted_columns r0') by congruence.
  assert (Hxv : X_Variable r0 = X_Variable r0').
  { change (snd (fst (fitted_columns r0)) = snd (fst (fitted_columns r0'))).
    now rewrite Hr. }
  assert (Hyv : Y_Variable r0 = Y_Variable r0').
  { change (snd (fitted_columns r0) = snd (fitted_columns r0')).
    now rewrite Hr. }
  now rewrite Hxv, Hyv.
Qed.

End CritView.

(** ** Instances *)

(** The broken line keeps scipy's promise. *)

Lemma increasing_above (a : Q) (l : list Q) (i : nat) :
  scipy.all_diff scipy.Qlt_bool (a :: l) = true ->
  (i < length l)%nat -> (a < nth i l 0)%Q.
Proof.
  revert a i. induction l as [| b l IH]; intros a i H Hi;
    [simpl in Hi; lia |].
  cbn [scipy.all_diff] in H. apply andb_true_iff in H. destruct H as [Hab H].
  assert (Hlt : (a < b)%Q).
  { unfold scipy.Qlt_bool in Hab. apply negb_true_iff in Hab.
    apply Qnot_le_lt. intros Hle. apply Qle_bool_iff in Hle. congruence. }
  destruct i as [| i]; [exact Hlt |].
  simpl in Hi |- *. eapply Qlt_trans; [exact Hlt |]. apply IH; [exact H | lia].
Qed.

Lemma broken_line_step (a a' : Q) (x : list Q) (b b' : Q) (y : list Q) (t : Q) :
  broken_line (a :: a' :: x) (b :: b' :: y) t =
  if Qle_bool t a' then (b + (t - a) * ((b' - b) / (a' - a)))%Q
  else broken_line (a' :: x) (b' :: y) t.
Proof. reflexivity. Qed.

Lemma broken_line_through (x y : list Q) (i : nat) (t : Q) :
  scipy.all_diff scipy.Qlt_bool x = true ->
  length x = length y ->
  (i < length x)%nat -> (t == nth i x 0)%Q ->
  (broken_line x y t == nth i y 0)%Q.
Proof.
  revert y i. induction x as [| a x IH]; intros y i Hinc Hlen Hi Ht;
    [simpl in Hi; lia |].
  destruct y as [| b y]; [discriminate Hlen |].
  injection Hlen as Hlen.
  destruct x as [| a' x]; destruct y as [| b' y]; try discriminate Hlen.
  { destruct i as [| i]; [reflexivity | simpl in Hi; lia]. }
  assert (Haa' : (a < a')%Q) by (apply (increasing_above a (a' :: x) 0 Hinc); simpl; lia).
  assert (Htail : scipy.all_diff scipy.Qlt_bool (a' :: x) = true).
  { cbn [scipy.all_diff] in Hinc. now apply andb_true_iff in Hinc. }
  rewrite broken_line_step.
  destruct i as [| i].
  - cbn [nth] in Ht |- *.
    assert (Hle : Qle_bool t a' = true).
    { apply Qle_bool_iff. rewrite Ht. now apply Qlt_le_weak. }
    rewrite Hle, Ht. field. intros E.
    apply (Qlt_irrefl a'). setoid_replace a' with a at 1; [exact Haa' |].
    rewrite <- (Qplus_0_r a), <- E. ring.
  - cbn [nth] in Ht |- *. simpl in Hi.
    destruct (Qle_bool t a') eqn:Hle.
    + apply Qle_bool_iff in Hle.
      destruct i as [| i].
      * cbn [nth] in Ht |- *. rewrite Ht. field. intros E.
        apply (Qlt_irrefl a'). setoid_replace a' with a at 1; [exact Haa' |].
        rewrite <- (Qplus_0_r a), <- E. ring.
      * exfalso. cbn [nth] in Ht.
        assert (Hgt : (a' < nth i x 0)%Q)
          by (apply increasing_above; [exact Htail | simpl in Hi; lia]).
        rewrite <- Ht in Hgt. apply (Qlt_irrefl a').
        eapply Qlt_le_trans; eassumption.
    + apply (IH (b' :: y) i); [exact Htail | exact Hlen | simpl; lia | exact Ht].
Qed.

Lemma broken_line_interpolates :
  forall x y s k sp,
    scipy.UnivariateSpline x y s k = Ok sp -> (s == 0)%Q ->
    forall i t, (i < length x)%nat -> (t == nth i x 0)%Q ->
                (broken_line_call sp t == nth i y 0)%Q.
Proof.
  intros x y s k sp Hsp Hs i t Hi Ht.
  unfold scipy.UnivariateSpline in Hsp.
  assert (Hstrict : scipy.Qlt_bool 0 s = false).
  { unfold scipy.Qlt_bool. apply negb_false_iff, Qle_bool_iff.
    rewrite Hs. apply Qle_refl. }
  rewrite Hstrict in Hsp.
  destruct (scipy.all_diff scipy.Qlt_bool x) eqn:Hinc; [| discriminate].
  destruct (Nat.eqb_spec (length x) (length y)) as [Hlen |]; [| discriminate].
  cbn [negb] in Hsp.
  destruct ((1 <=? k)%Z && (k <=? 5)%Z); [| discriminate].
  destruct (Qle_bool 0 s); [| discriminate].
  destruct (k <? Z.of_nat (length x))%Z; [| discriminate].
  injection Hsp as <-. unfold broken_line_call. cbn.
  now apply broken_line_through.
Qed.

(** Instances of the claims on the sample file, read with [parse_digits]
    and evaluated with [broken_line_call]. *)

Lemma resample_spans_witness :
  let df := snd (load_data parse_digits (Some sample_csv)) in
  let f := fit_of (curve_rows (Some "A") df) in
  get_fitted_spline (Some "A") df = Ok ([], Some f) /\
  (2 <= 4)%nat /\
  length (resample broken_line_call f 4) = 4%nat /\
  Forall2 (fun p sample => (fst (fst p) == fst sample)%Q /\
                           (snd (fst p) == snd sample)%Q)
          (resample broken_line_call f 4)
          (samples (curve_rows (Some "A") df)) /\
  exists t_fit,
    length t_fit = 4%nat /\
    (nth 0 t_fit 0 == 0)%Q /\ (nth 3 t_fit 0 == 3)%Q /\
    (broken_line_call (spline_x f) (nth 0 t_fit 0) == 0)%Q /\
    (broken_line_call (spline_y f) (nth 3 t_fit 0) == 9)%Q.
Proof.
  intros df f.
  assert (Hfit : get_fitted_spline (Some "A") df = Ok ([], Some f))
    by (vm_compute; reflexivity).
  assert (Hcount : (2 <= 4)%nat) by lia.
  split; [exact Hfit |]. split; [exact Hcount |].
  destruct (resample_spans broken_line_call broken_line_interpolates
              (Some "A") df [] f 4 Hfit Hcount)
    as (t_fit & _ & Hlen & Htlen & _ & _ & H0 & H3 & Hx0 & _ & _ & Hy3 & _).
  split; [exact Hlen |].
  split; [vm_compute; repeat constructor |].
  exists t_fit. repeat split; assumption.
Defined.

Lemma conv_factor_quotient_witness :
  dict_get CONVERSION_FACTORS "mass" =
    Some [ ("grams (g)", 1.0%Q); ("kilograms (kg)", 1000.0%Q);
           ("ounces (oz)", 28.3495%Q); ("pounds (lb)", 453.592%Q) ] /\
  conv_factor "mass" "kilograms (kg)" "pounds (lb)" =
    Ok (1000.0 / 453.592)%Q.
Proof.
  split; [reflexivity |].
  eapply (conv_factor_quotient "mass" "kilograms (kg)" "pounds (lb)");
    reflexivity.
Defined.

Lemma spline_degree_witness :
  let df := snd (load_data parse_digits (Some sample_csv)) in
  (2 <= Z.of_nat (length (curve_rows (Some "C") df)))%Z /\
  exists f k,
    get_fitted_spline (Some "C") df = Ok ([], Some f) /\
    scipy.sp_k (spline_x f) = k /\ scipy.sp_k (spline_y f) = k /\
    k = Z.min 3 (3 - 1) /\ k = 2%Z.
Proof.
  intros df.
  assert (H : (2 <= Z.of_nat (length (curve_rows (Some "C") df)))%Z)
    by (vm_compute; discriminate).
  split; [exact H |].
  destruct (spline_degree (Some "C") df H)
    as (f & k & Hfit & Hx & Hy & Hk & _ & H3 & _).
  exists f, k. repeat split; assumption.
Defined.

Lemma too_few_points_skipped_witness :
  let df := snd (load_data parse_digits (Some sample_csv)) in
  (length (curve_rows (Some "B") df) < 2)%nat /\
  get_fitted_spline (Some "B") df = Ok ([too_few_points (Some "B")], None) /\
  main parse_digits broken_line_call (Some sample_csv)
       (pick None (Some 1%nat) None) =
  Ok (mkPage [too_few_points (Some "B")] [Some "A"; Some "B"; Some "C"]
             (Some (Some "B")) None None).
Proof.
  intros df.
  assert (H : (length (curve_rows (Some "B") df) < 2)%nat)
    by (vm_compute; lia).
  split; [exact H |].
  destruct (too_few_points_skipped parse_digits broken_line_call
              (Some "B") df H) as (Hfit & _ & Hmain).
  split; [exact Hfit |].
  assert (Hload : load_data parse_digits (Some sample_csv) = ([], df))
    by (vm_compute; reflexivity).
  assert (Hfilters : filters (pick None (Some 1%nat) None) df = Ok df)
    by (vm_compute; reflexivity).
  assert (Hchoose : choose_title (pick None (Some 1%nat) None) df =
                    Ok ([], [Some "A"; Some "B"; Some "C"], Some (Some "B")))
    by (vm_compute; reflexivity).
  destruct (Hmain (Some sample_csv) (pick None (Some 1%nat) None) [] df []
              [Some "A"; Some "B"; Some "C"] Hload Hfilters Hchoose)
    as (said & Hpage & Hsaid).
  rewrite Hpage, (Hsaid eq_refl). reflexivity.
Defined.

Lemma bad_rows_dropped_witness :
  let r := sample_row "A" (CStr "n/a") (CNum 7) "Diameter in" "critmass kg"
                      "sphere" in
  (not_a_number parse_digits (X_Value r) \/
   not_a_number parse_digits (Y_Value r)) /\
  load_data parse_digits (Some sample_csv) =
  load_data parse_digits (Some (firstn 2 sample_csv ++ skipn 3 sample_csv)).
Proof.
  intros r.
  assert (H : not_a_number parse_digits (X_Value r) \/
              not_a_number parse_digits (Y_Value r))
    by (left; reflexivity).
  split; [exact H |].
  exact (proj1 (bad_rows_dropped parse_digits broken_line_call
                  (firstn 2 sample_csv) (skipn 3 sample_csv) r H)).
Defined.

Lemma order_preserved_witness :
  let df := snd (load_data parse_digits (Some sample_csv)) in
  let f := fit_of (curve_rows (Some "C") df) in
  get_fitted_spline (Some "C") df = Ok ([], Some f) /\
  combine (x_data f) (y_data f) = [(3%Q, 1%Q); (1%Q, 2%Q); (2%Q, 0%Q)] /\
  scipy.sp_x (spline_x f) = [0%Q; 1%Q; 2%Q].
Proof.
  intros df f.
  assert (Hfit : get_fitted_spline (Some "C") df = Ok ([], Some f))
    by (vm_compute; reflexivity).
  split; [exact Hfit |].
  destruct (order_preserved parse_digits sample_csv (Some "C") [] f Hfit)
    as (_ & _ & _ & Hsamples & _ & _ & _ & _ & Hknots & _).
  split; [exact Hsamples | exact Hknots].
Defined.

Lemma unknown_variable_unconverted_witness :
  dict_mem VARIABLE_TO_CATEGORY "Foo bar" = false /\
  get_unit_info "Foo bar" = Ok ("unknown", "Foo bar", ["Foo bar"]) /\
  conv_factor_in [] "unknown" "Foo bar" "Foo bar" = Ok 1.0%Q.
Proof.
  assert (H : dict_mem VARIABLE_TO_CATEGORY "Foo bar" = false) by reflexivity.
  split; [exact H |].
  destruct (unknown_variable_unconverted parse_digits broken_line_call
              "Foo bar" H) as (Hinfo & _ & Hfactor & _).
  split; [exact Hinfo | exact (Hfactor [])].
Defined.

Lemma get_unit_info_bound_witness :
  dict_get VARIABLE_TO_CATEGORY "volume gal" =
    Some ("volume", "gallons (US)") /\
  exists table base rest,
    dict_get CONVERSION_FACTORS "volume" = Some table /\
    get_unit_info "volume gal" =
      Ok ("volume", "gallons (US)", dict_keys table) /\
    In "gallons (US)" (dict_keys table) /\
    table = (base, 1.0%Q) :: rest /\
    Forall (fun entry => ~ (snd entry == 1.0)%Q) rest.
Proof.
  assert (H : dict_get VARIABLE_TO_CATEGORY "volume gal" =
              Some ("volume", "gallons (US)")) by reflexivity.
  split; [exact H |].
  exact (get_unit_info_bound "volume gal" "volume" "gallons (US)" H).
Defined.

Lemma fit_independent_of_filters_witness :
  let run ui :=
    main parse_digits broken_line_call (Some sample_csv) ui in
  let shown ui :=
    match run ui with
    | Ok pg => pg
    | Raise _ => mkPage [] [] None None None
    end in
  let pg1 := shown no_picks in
  let pg2 := shown (pick (Some 1%nat) None (Some 0%nat)) in
  run no_picks = Ok pg1 /\
  run (pick (Some 1%nat) None (Some 0%nat)) = Ok pg2 /\
  selected_title pg1 = selected_title pg2 /\
  curve_titles pg1 <> curve_titles pg2 /\
  fitted pg1 = fitted pg2.
Proof.
  intros run shown pg1 pg2.
  assert (H1 : run no_picks = Ok pg1) by (vm_compute; reflexivity).
  assert (H2 : run (pick (Some 1%nat) None (Some 0%nat)) = Ok pg2)
    by (vm_compute; reflexivity).
  assert (Hsel : selected_title pg1 = selected_title pg2)
    by (vm_compute; reflexivity).
  split; [exact H1 |]. split; [exact H2 |]. split; [exact Hsel |].
  split; [vm_compute; discriminate |].
  exact (proj1 (fit_independent_of_filters parse_digits broken_line_call
                  (Some sample_csv) no_picks
                  (pick (Some 1%nat) None (Some 0%nat)) pg1 pg2 H1 H2 Hsel)).
Defined.

(** Instances of the further properties. *)

Lemma conv_factor_ratios_witness :
  dict_get CONVERSION_FACTORS "length" =
    Some [ ("centimeters (cm)", 1.0%Q); ("meters (m)", 100.0%Q);
           ("inches (in)", 2.54%Q); ("feet (ft)", 30.48%Q) ] /\
  exists aa ab ba bc ac,
    conv_factor "length" "inches (in)" "inches (in)" = Ok aa /\
    conv_factor "length" "inches (in)" "centimeters (cm)" = Ok ab /\
    conv_factor "length" "centimeters (cm)" "inches (in)" = Ok ba /\
    conv_factor "length" "centimeters (cm)" "feet (ft)" = Ok bc /\
    conv_factor "length" "inches (in)" "feet (ft)" = Ok ac /\
    (aa == 1)%Q /\ (ab * ba == 1)%Q /\ (ab * bc == ac)%Q /\ (0 < ab)%Q.
Proof.
  split; [reflexivity |].
  eapply (conv_factor_ratios "length" "inches (in)" "centimeters (cm)"
            "feet (ft)"); reflexivity.
Defined.

Lemma conv_factor_missing_key_witness :
  "length" <> "unknown" /\
  conv_factor "length" "inches (in)" "yards (yd)" = Raise KeyError.
Proof.
  assert (H : "length" <> "unknown") by discriminate.
  split; [exact H |].
  apply (conv_factor_missing_key "length" "inches (in)" "yards (yd)" H).
  right. eexists. split; [reflexivity |]. right. reflexivity.
Defined.

Lemma axis_units_never_raise_witness :
  get_unit_info "Diameter in" =
    Ok ("length", "inches (in)",
        ["centimeters (cm)"; "meters (m)"; "inches (in)"; "feet (ft)"]) /\
  exists said unit_selected factor,
    select_unit unknown_x_variable "Diameter in"
      ("length", "inches (in)",
       ["centimeters (cm)"; "meters (m)"; "inches (in)"; "feet (ft)"])
      (Some 3%nat) = Ok (said, Some unit_selected) /\
    factor_of "length" "inches (in)" (Some unit_selected) = Ok factor /\
    (0 < factor)%Q.
Proof.
  assert (H : get_unit_info "Diameter in" =
    Ok ("length", "inches (in)",
        ["centimeters (cm)"; "meters (m)"; "inches (in)"; "feet (ft)"]))
    by reflexivity.
  split; [exact H |].
  destruct (axis_units_never_raise unknown_x_variable _ _ _ _ (Some 3%nat) H)
    as (said & u & q & Hsel & _ & _ & _ & Hf & Hpos & _).
  { intros i [= <-]. simpl. lia. }
  exists said, u, q. repeat split; assumption.
Defined.

Lemma untouched_units_show_raw_witness :
  let pg := page_of (main parse_digits broken_line_call (Some sample_csv)
                          no_picks) in
  main parse_digits broken_line_call (Some sample_csv) no_picks = Ok pg /\
  fitted pg = Some (fit_on pg) /\ drawn pg = Some (chart_on pg) /\
  pick_x_unit no_picks = None /\
  (x_conv_factor (chart_on pg) == 1)%Q /\
  x_unit_selected (chart_on pg) = Some "inches (in)".
Proof.
  intros pg.
  assert (H1 : main parse_digits broken_line_call (Some sample_csv) no_picks =
               Ok pg) by (vm_compute; reflexivity).
  assert (H2 : fitted pg = Some (fit_on pg)) by (vm_compute; reflexivity).
  assert (H3 : drawn pg = Some (chart_on pg)) by (vm_compute; reflexivity).
  split; [exact H1 |]. split; [exact H2 |]. split; [exact H3 |].
  split; [reflexivity |].
  destruct (untouched_units_show_raw parse_digits broken_line_call _ _ _ _ _
              H1 H2 H3) as [Hx _].
  destruct (Hx eq_refl) as (Hone & _ & _).
  split; [exact Hone | vm_compute; reflexivity].
Defined.

Lemma scatter_shows_every_sample_witness :
  let pg := page_of (main parse_digits broken_line_call (Some sample_csv)
                          (pick None (Some 2%nat) None)) in
  main parse_digits broken_line_call (Some sample_csv)
       (pick None (Some 2%nat) None) = Ok pg /\
  fitted pg = Some (fit_on pg) /\ drawn pg = Some (chart_on pg) /\
  exists curve_title,
    selected_title pg = Some curve_title /\
    length (plot_df_scatter (chart_on pg)) =
    length (curve_rows curve_title
              (snd (load_data parse_digits (Some sample_csv)))).
Proof.
  intros pg.
  assert (H1 : main parse_digits broken_line_call (Some sample_csv)
                    (pick None (Some 2%nat) None) = Ok pg)
    by (vm_compute; reflexivity).
  assert (H2 : fitted pg = Some (fit_on pg)) by (vm_compute; reflexivity).
  assert (H3 : drawn pg = Some (chart_on pg)) by (vm_compute; reflexivity).
  split; [exact H1 |]. split; [exact H2 |]. split; [exact H3 |].
  destruct (scatter_shows_every_sample parse_digits broken_line_call _ _ _ _ _
              H1 H2 H3) as (curve_title & Hsel & Hlen & _).
  exists curve_title. split; assumption.
Defined.

Lemma line_joins_end_samples_witness :
  let pg := page_of (main parse_digits broken_line_call (Some sample_csv)
                          no_picks) in
  main parse_digits broken_line_call (Some sample_csv) no_picks = Ok pg /\
  fitted pg = Some (fit_on pg) /\ drawn pg = Some (chart_on pg) /\
  length (plot_df_line (chart_on pg)) = 200%nat.
Proof.
  intros pg.
  assert (H1 : main parse_digits broken_line_call (Some sample_csv) no_picks =
               Ok pg) by (vm_compute; reflexivity).
  assert (H2 : fitted pg = Some (fit_on pg)) by (vm_compute; reflexivity).
  assert (H3 : drawn pg = Some (chart_on pg)) by (vm_compute; reflexivity).
  split; [exact H1 |]. split; [exact H2 |]. split; [exact H3 |].
  exact (proj1 (line_joins_end_samples parse_digits broken_line_call
                  broken_line_interpolates _ _ _ _ _ H1 H2 H3)).
Defined.

Lemma filter_by_pick_witness :
  let df := snd (load_data parse_digits (Some sample_csv)) in
  nth_error (pd.unique String.eqb (pd.dropna (map geometry df))) 1 =
    Some "cylinder" /\
  filter_by geometry (Some 2%nat) df =
    Ok (filter (fun r => text_eq (geometry r) "cylinder") df).
Proof.
  intros df.
  assert (H : nth_error (pd.unique String.eqb (pd.dropna (map geometry df))) 1
              = Some "cylinder") by (vm_compute; reflexivity).
  split; [exact H |].
  exact (proj1 (filter_by_pick geometry df 1 "cylinder" H)).
Defined.

Lemma curve_titles_distinct_witness :
  let df := snd (load_data parse_digits (Some sample_csv)) in
  choose_title no_picks df =
    Ok ([], [Some "A"; Some "B"; Some "C"], Some (Some "A")) /\
  NoDup [Some "A"; Some "B"; Some "C"].
Proof.
  intros df.
  assert (H : choose_title no_picks df =
              Ok ([], [Some "A"; Some "B"; Some "C"], Some (Some "A")))
    by (vm_compute; reflexivity).
  split; [exact H |].
  exact (proj1 (curve_titles_distinct no_picks df _ _ _ H)).
Defined.

Lemma nothing_loaded_nothing_shown_witness :
  let raw := [ sample_row "A" (CStr "n/a") (CNum 7) "Diameter in"
                          "critmass kg" "sphere" ] in
  (forall r, In r raw ->
     not_a_number parse_digits (X_Value r) \/
     not_a_number parse_digits (Y_Value r)) /\
  main parse_digits broken_line_call (Some raw)
       (pick (Some 9%nat) (Some 9%nat) (Some 9%nat)) =
  Ok (mkPage [] [] None None None).
Proof.
  intros raw.
  assert (H : forall r, In r raw ->
              not_a_number parse_digits (X_Value r) \/
              not_a_number parse_digits (Y_Value r)).
  { intros r [<- | []]. left. reflexivity. }
  split; [exact H |].
  apply (nothing_loaded_nothing_shown parse_digits broken_line_call (Some raw)).
  right. exists raw. split; [reflexivity | exact H].
Defined.

Lemma numeric_rows_kept_witness :
  let r := sample_row "A" (CNum 1) (CNum 1) "Diameter in" "critmass kg"
                      "sphere" in
  In r sample_csv /\ X_Value r = CNum 1 /\ Y_Value r = CNum 1 /\
  In (with_values (replace_nan r) 1%Q 1%Q)
     (snd (load_data parse_digits (Some sample_csv))).
Proof.
  intros r.
  assert (H : In r sample_csv) by (right; left; reflexivity).
  split; [exact H |]. split; [reflexivity |]. split; [reflexivity |].
  exact (proj1 (numeric_rows_kept parse_digits sample_csv r 1 1 H
                  eq_refl eq_refl)).
Defined.

Lemma missing_variable_name_raises_witness :
  let df := snd (load_data parse_digits (Some unnamed_csv)) in
  let r0 := mkRow (Some "D") 0%Q 1%Q None (Some "critmass kg") (Some "sphere")
                  None None None None None None None in
  let r1 := mkRow (Some "D") 1%Q 2%Q None (Some "critmass kg") (Some "sphere")
                  None None None None None None None in
  load_data parse_digits (Some unnamed_csv) = ([], df) /\
  filters no_picks df = Ok df /\
  choose_title no_picks df = Ok ([], [Some "D"], Some (Some "D")) /\
  truthy (Some "D") = true /\
  curve_rows (Some "D") df = [r0; r1] /\ X_Variable r0 = None /\
  main parse_digits broken_line_call (Some unnamed_csv) no_picks =
    Raise AttributeError.
Proof.
  intros df r0 r1.
  assert (H1 : load_data parse_digits (Some unnamed_csv) = ([], df))
    by reflexivity.
  assert (H2 : filters no_picks df = Ok df) by reflexivity.
  assert (H3 : choose_title no_picks df = Ok ([], [Some "D"], Some (Some "D")))
    by reflexivity.
  assert (H4 : truthy (Some "D") = true) by reflexivity.
  assert (H5 : curve_rows (Some "D") df = [r0; r1]) by reflexivity.
  assert (H6 : [r1] <> []) by discriminate.
  repeat (split; [assumption || reflexivity |]).
  exact (proj1 (missing_variable_name_raises parse_digits broken_line_call
                  (Some unnamed_csv) no_picks [] [] df df [Some "D"]
                  (Some "D") r0 [r1] H1 H2 H3 H4 H5 H6) eq_refl).
Defined.

Lemma picked_unit_converts_witness :
  let ui := pick None None (Some 0%nat) in
  let pg := page_of (main parse_digits broken_line_call (Some sample_csv) ui) in
  main parse_digits broken_line_call (Some sample_csv) ui = Ok pg /\
  fitted pg = Some (fit_on pg) /\ drawn pg = Some (chart_on pg) /\
  x_unit_selected (chart_on pg) = Some "centimeters (cm)" /\
  x_conv_factor (chart_on pg) = (2.54 / 1.0)%Q.
Proof.
  intros ui pg.
  assert (H1 : main parse_digits broken_line_call (Some sample_csv) ui = Ok pg)
    by (vm_compute; reflexivity).
  assert (H2 : fitted pg = Some (fit_on pg)) by (vm_compute; reflexivity).
  assert (H3 : drawn pg = Some (chart_on pg)) by (vm_compute; reflexivity).
  split; [exact H1 |]. split; [exact H2 |]. split; [exact H3 |].
  destruct (picked_unit_converts parse_digits broken_line_call _ _ _ _ _
              H1 H2 H3) as [Hx _].
  destruct (Hx "Diameter in" "length" "inches (in)"
              [ ("centimeters (cm)", 1.0%Q); ("meters (m)", 100.0%Q);
                ("inches (in)", 2.54%Q); ("feet (ft)", 30.48%Q) ]
              0%nat "centimeters (cm)" 2.54%Q 1.0%Q)
    as (Hu & Hf & _); try reflexivity.
  split; assumption.
Defined.

Lemma fit_reads_five_columns_witness :
  let df := snd (load_data parse_digits (Some sample_csv)) in
  map fitted_columns df = map fitted_columns (map strip_attributes df) /\
  get_fitted_spline (Some "C") df =
  get_fitted_spline (Some "C") (map strip_attributes df).
Proof.
  intros df.
  assert (H : map fitted_columns df =
              map fitted_columns (map strip_attributes df)) by reflexivity.
  split; [exact H |].
  exact (fit_reads_five_columns (Some "C") df (map strip_attributes df) H).
Defined.
